(** * Investment comparison: real estate versus stocks

    A shallow embedding of the computation core of
    [src/investment_comp_app.py]: the two calculators
    [calculate_real_estate_investment] and [calculate_stock_investment]
    and the derived metrics computed at module level (coefficient of
    variation, inflation-adjusted return, payback period), with the
    summary figures and the columns of the chart tables.

    Numbers.  The script computes with Python [int] and [float].  Here a
    number is an exact rational ([Qc], fractions in lowest terms, so that
    equal numbers are equal terms); rounding of binary floating point is
    not modelled, and neither is the range of a double: where a float
    power leaves it Python raises [OverflowError], and where [1 + r]
    rounds to [1.0] the divisor of the payment formula is zero although
    [r] is not.  What is stated of a whole class of inputs is therefore
    stated of the runs in which the code returns a value; that the code
    returns is stated at concrete inputs only, or where no rounding and
    no overflow can intervene.  The two integer inputs that drive control
    flow ([loan_term_years], [holding_period_years]) are [Z], as Python's
    [int].

    Errors.  Python raises [ZeroDivisionError] on [x / 0] and on
    [0 ** negative], and [IndexError] on [l[-1]] for an empty list.  The
    embedding threads them through a small error monad. *)

From Stdlib Require Import ZArith QArith Qpower Qcanon List Bool Lia.
Import ListNotations.

Close Scope Q_scope.
Open Scope Z_scope.
Open Scope Qc_scope.

(** ** Numbers *)

Definition Z2Qc (z : Z) : Qc := Q2Qc (inject_Z z).
Coercion Z2Qc : Z >-> Qc.

Definition Qcle_bool (x y : Qc) : bool := Qle_bool x y.

(** ** Exceptions and the error monad *)

Inductive exn : Type :=
| ZeroDivisionError
| IndexError.

Inductive result (A : Type) : Type :=
| Ok (a : A)
| Raise (e : exn).

Arguments Ok {A} a.
Arguments Raise {A} e.

Definition bind {A B : Type} (c : result A) (k : A -> result B) : result B :=
  match c with
  | Ok a => k a
  | Raise e => Raise e
  end.

Notation "x <- c ;; k" := (bind c (fun x => k))
  (at level 61, c at next level, right associativity).

(** ** Python primitives *)

(** [x / y] on numbers. *)
Definition py_div (x y : Qc) : result Qc :=
  if Qc_eq_bool y 0 then Raise ZeroDivisionError else Ok (x / y).

(** [x ** n] for an integer exponent: the exact power, computed on the
    fraction by repeated squaring and reduced once.  A negative exponent
    inverts; zero to a negative power raises.  (The [OverflowError] of a
    float power that leaves the range of a double has no counterpart
    here.) *)
Definition py_pow (x : Qc) (n : Z) : result Qc :=
  if (n <? 0)%Z && Qc_eq_bool x 0 then Raise ZeroDivisionError
  else Ok (Q2Qc (Qpower x n)).

(** [l[-1]]. *)
Fixpoint py_last {A : Type} (l : list A) : result A :=
  match l with
  | [] => Raise IndexError
  | [a] => Ok a
  | _ :: l' => py_last l'
  end.

(** [range(a, b)]. *)
Definition py_range (a b : Z) : list Z :=
  map (fun i => (a + Z.of_nat i)%Z) (seq 0 (Z.to_nat (b - a))).

(** ** What numpy_financial hands back

    A finite number, an infinity (with its sign: [true] is positive) or
    nan. *)
Inductive npfloat : Type :=
| Fin (q : Qc)
| Inf (positive : bool)
| NaN.

(** ** The inputs: the sidebar's module-level variables *)

Record InvestmentParameters : Type := {
  purchase_price : Qc;
  down_payment_percent : Qc;
  annual_interest_rate : Qc;
  loan_term_years : Z;
  monthly_rental_income : Qc;
  operating_expenses_percent : Qc;
  appreciation_rate : Qc;
  closing_costs_percent : Qc;
  selling_costs_percent : Qc;
  holding_period_years : Z;
  initial_stock_investment : Qc;
  expected_annual_return_rate : Qc;
  std_dev_stocks : Qc;
  inflation_rate : Qc;
  std_dev_real_estate : Qc
}.

(** The values the widgets start with. *)
Definition default_parameters : InvestmentParameters := {|
  purchase_price := 300000;
  down_payment_percent := 20;
  annual_interest_rate := 4;
  loan_term_years := 30;
  monthly_rental_income := 2000;
  operating_expenses_percent := 30;
  appreciation_rate := 3;
  closing_costs_percent := 5;
  selling_costs_percent := 6;
  holding_period_years := 5;
  initial_stock_investment := 75000;
  expected_annual_return_rate := 8;
  std_dev_stocks := 15;
  inflation_rate := 2;
  std_dev_real_estate := 4
|}.

(** ** Real estate: the locals of [calculate_real_estate_investment] *)

Definition down_payment (p : InvestmentParameters) : Qc :=
  purchase_price p * down_payment_percent p / 100.

Definition loan_amount (p : InvestmentParameters) : Qc :=
  purchase_price p - down_payment p.

Definition monthly_interest_rate (p : InvestmentParameters) : Qc :=
  annual_interest_rate p / 12 / 100.

Definition number_of_payments (p : InvestmentParameters) : Z :=
  (loan_term_years p * 12)%Z.

(** The monthly payment [M]: both powers are evaluated, then the
    division. *)
Definition M (p : InvestmentParameters) : result Qc :=
  a <- py_pow (1 + monthly_interest_rate p) (number_of_payments p) ;;
  b <- py_pow (1 + monthly_interest_rate p) (number_of_payments p) ;;
  py_div (loan_amount p * (monthly_interest_rate p * a)) (b - 1).

Definition annual_mortgage_payment (p : InvestmentParameters) : result Qc :=
  m <- M p ;; Ok (m * 12).

Definition annual_rental_income (p : InvestmentParameters) : Qc :=
  monthly_rental_income p * 12.

Definition operating_expenses (p : InvestmentParameters) : Qc :=
  annual_rental_income p * operating_expenses_percent p / 100.

Definition NOI (p : InvestmentParameters) : Qc :=
  annual_rental_income p - operating_expenses p.

Definition closing_costs (p : InvestmentParameters) : Qc :=
  purchase_price p * closing_costs_percent p / 100.

Definition initial_cash_investment (p : InvestmentParameters) : Qc :=
  down_payment p + closing_costs p.

(** The variables the yearly loop updates. *)
Record loop_state : Type := {
  property_value : Qc;
  mortgage_balance : Qc;
  equity_list : list Qc;
  property_value_list : list Qc;
  mortgage_balance_list : list Qc;
  annual_cash_flow_list : list Qc
}.

Definition loop_init (p : InvestmentParameters) : loop_state := {|
  property_value := purchase_price p;
  mortgage_balance := loan_amount p;
  equity_list := [];
  property_value_list := [];
  mortgage_balance_list := [];
  annual_cash_flow_list := []
|}.

(** One pass through the body of [for year in range(1, holding_period_years + 1)];
    [m] is the monthly payment and [cf] the annual cash flow. *)
Definition loop_body (p : InvestmentParameters) (m cf : Qc)
    (s : loop_state) (year : Z) : loop_state :=
  let property_value' := property_value s * (1 + appreciation_rate p / 100) in
  let mortgage_balance' :=
    mortgage_balance s * (1 + monthly_interest_rate p) ^ 12 - m * 12 in
  let equity := property_value' - mortgage_balance' in
  {| property_value := property_value';
     mortgage_balance := mortgage_balance';
     equity_list := equity_list s ++ [equity];
     property_value_list := property_value_list s ++ [property_value'];
     mortgage_balance_list := mortgage_balance_list s ++ [mortgage_balance'];
     annual_cash_flow_list := annual_cash_flow_list s ++ [cf] |}.

Definition yearly_loop (p : InvestmentParameters) (m cf : Qc) : loop_state :=
  fold_left (loop_body p m cf)
    (py_range 1 (holding_period_years p + 1)) (loop_init p).

Definition selling_costs (p : InvestmentParameters) (s : loop_state) : Qc :=
  property_value s * selling_costs_percent p / 100.

(** ** numpy_financial *)

(** The sum of [values[t] / d ^ (t0 + t)] over the positions [t] of
    [values]. *)
Fixpoint discounted_sum (d : Qc) (t0 : nat) (values : list Qc) : Qc :=
  match values with
  | [] => 0
  | v :: values' => v / d ^ t0 + discounted_sum d (S t0) values'
  end.

(** What IEEE arithmetic makes of the sum of [v / 0.0] over [values]:
    every term is an infinity of the sign of [v], or nan when [v] is zero;
    infinities of both signs add up to nan. *)
Definition sum_over_zero (values : list Qc) : npfloat :=
  if existsb (fun v => Qc_eq_bool v 0) values then NaN
  else if forallb (fun v => Qcle_bool 0 v) values then Inf true
  else if forallb (fun v => Qcle_bool v 0) values then Inf false
  else NaN.

(** Modelled from the spec: numpy_financial is not under src/.  Its [npv]
    is the standard net present value, the sum of
    [values[t] / (1 + rate) ^ t] from [t = 0].  NumPy does not raise when
    [1 + rate] is zero: the first term is [values[0]] and the others
    divide by zero. *)
Definition npv (rate : Qc) (values : list Qc) : npfloat :=
  if Qc_eq_bool (1 + rate) 0 then
    match values with
    | [] => Fin 0
    | [v] => Fin v
    | _ :: values' => sum_over_zero values'
    end
  else Fin (discounted_sum (1 + rate) 0 values).

(** ** The results *)

Module RealEstateResult.
Record t : Type := {
  annual_cash_flow : Qc;
  initial_cash_investment : Qc;
  cash_on_cash_return : Qc;
  equity_at_sale : Qc;
  NPV : npfloat;
  IRR : npfloat;
  equity_list : list Qc;
  property_value_list : list Qc;
  mortgage_balance_list : list Qc;
  annual_cash_flow_list : list Qc;
  cash_flows : list Qc
}.
End RealEstateResult.

Module StockResult.
Record t : Type := {
  portfolio_values : list Qc;
  annual_returns : list Qc;
  NPV : npfloat;
  IRR : npfloat;
  cash_flows : list Qc
}.
End StockResult.

Section Calculators.

(** numpy_financial's [irr], a numerical root finder on the cash flows that
    is not part of the script: the calculators take it as given. *)
Variable irr : list Qc -> npfloat.

(** ** [calculate_real_estate_investment] *)

Definition calculate_real_estate_investment (p : InvestmentParameters)
    : result RealEstateResult.t :=
  m <- M p ;;
  let annual_mortgage_payment := m * 12 in
  let annual_cash_flow := NOI p - annual_mortgage_payment in
  q <- py_div annual_cash_flow (initial_cash_investment p) ;;
  let cash_on_cash_return := q * 100 in
  let s := yearly_loop p m annual_cash_flow in
  let equity_at_sale :=
    property_value s - mortgage_balance s - selling_costs p s in
  last_cash_flow <- py_last (annual_cash_flow_list s) ;;
  let cash_flows :=
    [- initial_cash_investment p] ++ removelast (annual_cash_flow_list s)
      ++ [last_cash_flow + equity_at_sale] in
  let discount_rate := expected_annual_return_rate p / 100 in
  Ok {| RealEstateResult.annual_cash_flow := annual_cash_flow;
        RealEstateResult.initial_cash_investment := initial_cash_investment p;
        RealEstateResult.cash_on_cash_return := cash_on_cash_return;
        RealEstateResult.equity_at_sale := equity_at_sale;
        RealEstateResult.NPV := npv discount_rate cash_flows;
        RealEstateResult.IRR := irr cash_flows;
        RealEstateResult.equity_list := equity_list s;
        RealEstateResult.property_value_list := property_value_list s;
        RealEstateResult.mortgage_balance_list := mortgage_balance_list s;
        RealEstateResult.annual_cash_flow_list := annual_cash_flow_list s;
        RealEstateResult.cash_flows := cash_flows |}.

(** ** [calculate_stock_investment] *)

Record stock_state : Type := {
  portfolio_values : list Qc;
  annual_returns : list Qc
}.

(** One pass through the body of [for year in range(1, years + 1)]. *)
Definition stock_body (p : InvestmentParameters)
    (s : result stock_state) (year : Z) : result stock_state :=
  st <- s ;;
  last_value <- py_last (portfolio_values st) ;;
  let annual_return := last_value * expected_annual_return_rate p / 100 in
  last_value' <- py_last (portfolio_values st) ;;
  Ok {| portfolio_values := portfolio_values st ++ [last_value' + annual_return];
        annual_returns := annual_returns st ++ [annual_return] |}.

Definition stock_loop (p : InvestmentParameters) : result stock_state :=
  let years := holding_period_years p in
  fold_left (stock_body p) (py_range 1 (years + 1))
    (Ok {| portfolio_values := [initial_stock_investment p];
           annual_returns := [] |}).

Definition calculate_stock_investment (p : InvestmentParameters)
    : result StockResult.t :=
  st <- stock_loop p ;;
  let cash_flows := [- initial_stock_investment p] ++ annual_returns st in
  let discount_rate := expected_annual_return_rate p / 100 in
  Ok {| StockResult.portfolio_values := portfolio_values st;
        StockResult.annual_returns := annual_returns st;
        StockResult.NPV := npv discount_rate cash_flows;
        StockResult.IRR := irr cash_flows;
        StockResult.cash_flows := cash_flows |}.

End Calculators.

(** ** Derived metrics: the module-level statements after the charts *)

(** Python's [x * 100], [x - y] and [x / y] where [x] may be an infinity
    or nan.  [irr] hands back a Python float, so a zero divisor raises. *)
Definition npfloat_scale (x : npfloat) (k : Qc) : npfloat :=
  match x with
  | Fin q => Fin (q * k)
  | Inf s => if Qc_eq_bool k 0 then NaN else Inf (if Qcle_bool 0 k then s else negb s)
  | NaN => NaN
  end.

Definition npfloat_sub (x : npfloat) (y : Qc) : npfloat :=
  match x with
  | Fin q => Fin (q - y)
  | Inf s => Inf s
  | NaN => NaN
  end.

Definition div_by_npfloat (x : Qc) (y : npfloat) : result npfloat :=
  match y with
  | Fin q => d <- py_div x q ;; Ok (Fin d)
  | Inf _ => Ok (Fin 0)
  | NaN => Ok NaN
  end.

Definition expected_return_real_estate (re : RealEstateResult.t) : npfloat :=
  npfloat_scale (RealEstateResult.IRR re) 100.

Definition CV_real_estate (p : InvestmentParameters) (re : RealEstateResult.t)
    : result npfloat :=
  div_by_npfloat (std_dev_real_estate p) (expected_return_real_estate re).

Definition CV_stocks (p : InvestmentParameters) : result Qc :=
  py_div (std_dev_stocks p) (expected_annual_return_rate p).

Definition real_return_real_estate (p : InvestmentParameters)
    (re : RealEstateResult.t) : npfloat :=
  npfloat_sub (expected_return_real_estate re) (inflation_rate p).

Definition real_return_stocks (p : InvestmentParameters) : Qc :=
  expected_annual_return_rate p - inflation_rate p.

Definition payback_period_real_estate (re : RealEstateResult.t) : result Qc :=
  py_div (RealEstateResult.initial_cash_investment re)
         (RealEstateResult.annual_cash_flow re).

Definition annual_return_stock (p : InvestmentParameters) : Qc :=
  initial_stock_investment p * expected_annual_return_rate p / 100.

Definition payback_period_stock (p : InvestmentParameters) : result Qc :=
  py_div (initial_stock_investment p) (annual_return_stock p).

(** ** Reference sequences

    What the recurrences of the yearly loops unfold to; the loops are
    compared with them below. *)

(** The loop state after [n] passes. *)
Definition after_years (p : InvestmentParameters) (m cf : Qc) (n : nat)
    : loop_state :=
  Nat.iter n (fun s => loop_body p m cf s 0%Z) (loop_init p).

(** The mortgage balance after [y] years: a year of monthly compounding,
    then twelve payments taken off. *)
Fixpoint balance_after (p : InvestmentParameters) (m : Qc) (y : nat) : Qc :=
  match y with
  | O => loan_amount p
  | S y' =>
      balance_after p m y' * (1 + monthly_interest_rate p) ^ 12 - 12 * m
  end.

(** The property value after [y] years of appreciation. *)
Definition value_after (p : InvestmentParameters) (y : nat) : Qc :=
  purchase_price p * (1 + appreciation_rate p / 100) ^ y.

(** The portfolio value after [y] years of compound growth. *)
Definition portfolio_after (p : InvestmentParameters) (y : nat) : Qc :=
  initial_stock_investment p * (1 + expected_annual_return_rate p / 100) ^ y.

(** The net present value as the glossary has it: every cash flow
    [values[t]] divided by [(1 + d) ^ t], all added up. *)
Definition present_value (d : Qc) (values : list Qc) : Qc :=
  fold_right Qcplus 0
    (map (fun tv : nat * Qc => snd tv / (1 + d) ^ fst tv)
       (combine (seq 0 (length values)) values)).

(** ** Instances to run the calculators on *)

(** An [irr] that finds no rate. *)
Definition irr_undefined (values : list Qc) : npfloat := NaN.

(** The default purchase on a one-year loan, held for two years. *)
Definition short_parameters : InvestmentParameters := {|
  purchase_price := 300000;
  down_payment_percent := 20;
  annual_interest_rate := 4;
  loan_term_years := 1;
  monthly_rental_income := 2000;
  operating_expenses_percent := 30;
  appreciation_rate := 3;
  closing_costs_percent := 5;
  selling_costs_percent := 6;
  holding_period_years := 2;
  initial_stock_investment := 75000;
  expected_annual_return_rate := 8;
  std_dev_stocks := 15;
  inflation_rate := 2;
  std_dev_real_estate := 4
|}.

(** The default parameters with an interest-free mortgage. *)
Definition zero_rate_parameters : InvestmentParameters := {|
  purchase_price := 300000;
  down_payment_percent := 20;
  annual_interest_rate := 0;
  loan_term_years := 30;
  monthly_rental_income := 2000;
  operating_expenses_percent := 30;
  appreciation_rate := 3;
  closing_costs_percent := 5;
  selling_costs_percent := 6;
  holding_period_years := 5;
  initial_stock_investment := 75000;
  expected_annual_return_rate := 8;
  std_dev_stocks := 15;
  inflation_rate := 2;
  std_dev_real_estate := 4
|}.

(** The one-year loan with nothing held: a holding period of zero. *)
Definition no_holding_parameters : InvestmentParameters := {|
  purchase_price := 300000;
  down_payment_percent := 20;
  annual_interest_rate := 4;
  loan_term_years := 1;
  monthly_rental_income := 2000;
  operating_expenses_percent := 30;
  appreciation_rate := 3;
  closing_costs_percent := 5;
  selling_costs_percent := 6;
  holding_period_years := 0;
  initial_stock_investment := 75000;
  expected_annual_return_rate := 8;
  std_dev_stocks := 15;
  inflation_rate := 2;
  std_dev_real_estate := 4
|}.

(** ** The summary figures and the chart tables

    The module-level statements between the two calculators and the risk
    metrics. *)

(** [stock_results['portfolio_values'][-1]]. *)
Definition final_portfolio_value (st : StockResult.t) : result Qc :=
  py_last (StockResult.portfolio_values st).

Definition total_return (p : InvestmentParameters) (st : StockResult.t)
    : result Qc :=
  v <- final_portfolio_value st ;; Ok (v - initial_stock_investment p).

(** [np.arange(1, holding_period_years + 1)]. *)
Definition years (p : InvestmentParameters) : list Z :=
  py_range 1 (holding_period_years p + 1).

(** The columns given to [pd.DataFrame], in the order of the dictionary;
    [pd.DataFrame] wants them all of one length. *)
Definition real_estate_df (p : InvestmentParameters)
    (re : RealEstateResult.t) : list (list Qc) :=
  [ map Z2Qc (years p);
    RealEstateResult.property_value_list re;
    RealEstateResult.mortgage_balance_list re;
    RealEstateResult.equity_list re;
    RealEstateResult.annual_cash_flow_list re ].

Definition stock_df (p : InvestmentParameters) (st : StockResult.t)
    : list (list Qc) :=
  [ map Z2Qc (years p);
    tl (StockResult.portfolio_values st);
    StockResult.annual_returns st ].

Definition combined_cash_flow_df (p : InvestmentParameters)
    (re : RealEstateResult.t) (st : StockResult.t) : list (list Qc) :=
  [ map Z2Qc (years p);
    RealEstateResult.annual_cash_flow_list re;
    StockResult.annual_returns st ].

(** ** Reference: paying the loan off month by month

    The balance of a loan [L] at monthly rate [r] after [k] payments of
    [m], each made after a month's interest; and the sum
    [1 + (1+r) + ... + (1+r)^(k-1)]. *)
Fixpoint monthly_balance (L r m : Qc) (k : nat) : Qc :=
  match k with
  | O => L
  | S k' => monthly_balance L r m k' * (1 + r) - m
  end.

Fixpoint geometric_sum (r : Qc) (k : nat) : Qc :=
  match k with
  | O => 0
  | S k' => geometric_sum r k' * (1 + r) + 1
  end.

Definition Qcsum (l : list Qc) : Qc := fold_right Qcplus 0 l.

(** A 1200% mortgage over one year: the monthly rate is 1. *)
Definition steep_parameters : InvestmentParameters := {|
  purchase_price := 100;
  down_payment_percent := 20;
  annual_interest_rate := 1200;
  loan_term_years := 1;
  monthly_rental_income := 10;
  operating_expenses_percent := 30;
  appreciation_rate := 3;
  closing_costs_percent := 5;
  selling_costs_percent := 6;
  holding_period_years := 2;
  initial_stock_investment := 100;
  expected_annual_return_rate := 100;
  std_dev_stocks := 15;
  inflation_rate := 2;
  std_dev_real_estate := 4
|}.

(** The steep mortgage with no term, with a term of minus one year, and
    paid in full. *)
Definition zero_term_parameters : InvestmentParameters := {|
  purchase_price := 100;
  down_payment_percent := 20;
  annual_interest_rate := 1200;
  loan_term_years := 0;
  monthly_rental_income := 10;
  operating_expenses_percent := 30;
  appreciation_rate := 3;
  closing_costs_percent := 5;
  selling_costs_percent := 6;
  holding_period_years := 2;
  initial_stock_investment := 100;
  expected_annual_return_rate := 100;
  std_dev_stocks := 15;
  inflation_rate := 2;
  std_dev_real_estate := 4
|}.

Definition backwards_parameters : InvestmentParameters := {|
  purchase_price := 100;
  down_payment_percent := 20;
  annual_interest_rate := 1200;
  loan_term_years := -1;
  monthly_rental_income := 10;
  operating_expenses_percent := 30;
  appreciation_rate := 3;
  closing_costs_percent := 5;
  selling_costs_percent := 6;
  holding_period_years := 2;
  initial_stock_investment := 100;
  expected_annual_return_rate := 100;
  std_dev_stocks := 15;
  inflation_rate := 2;
  std_dev_real_estate := 4
|}.

Definition paid_in_full_parameters : InvestmentParameters := {|
  purchase_price := 100;
  down_payment_percent := 100;
  annual_interest_rate := 1200;
  loan_term_years := 1;
  monthly_rental_income := 10;
  operating_expenses_percent := 30;
  appreciation_rate := 3;
  closing_costs_percent := 5;
  selling_costs_percent := 6;
  holding_period_years := 2;
  initial_stock_investment := 100;
  expected_annual_return_rate := 100;
  std_dev_stocks := 15;
  inflation_rate := 2;
  std_dev_real_estate := 4
|}.

(** * Properties *)

(** ** Numbers *)

Ltac Qc_neq :=
  let H := fresh in
  intro H; apply (f_equal this) in H; vm_compute in H; discriminate H.

Lemma Qc_eq_bool_true (x y : Qc) : x = y -> Qc_eq_bool x y = true.
Proof.
  intros ->. unfold Qc_eq_bool. destruct (Qc_eq_dec y y); congruence.
Qed.

Lemma Qc_eq_bool_false (x y : Qc) : x <> y -> Qc_eq_bool x y = false.
Proof.
  intros H. unfold Qc_eq_bool. destruct (Qc_eq_dec x y); congruence.
Qed.

Lemma py_div_ok (x y : Qc) : y <> 0 -> py_div x y = Ok (x / y).
Proof. intros H. unfold py_div. now rewrite Qc_eq_bool_false. Qed.

Lemma py_div_zero (x : Qc) : py_div x 0 = Raise ZeroDivisionError.
Proof. reflexivity. Qed.

Lemma py_div_inv (x y q : Qc) : py_div x y = Ok q -> y <> 0 /\ q = x / y.
Proof.
  unfold py_div, Qc_eq_bool. destruct (Qc_eq_dec y 0); [discriminate|].
  intros [= <-]. now split.
Qed.

Lemma py_div_raises (x y : Qc) (e : exn) :
  py_div x y = Raise e -> y = 0 /\ e = ZeroDivisionError.
Proof.
  unfold py_div, Qc_eq_bool. destruct (Qc_eq_dec y 0); [|discriminate].
  intros [= <-]. now split.
Qed.

(** The power computed on the fraction is the iterated product. *)
Lemma Q2Qc_Qpower_nat (x : Qc) (k : nat) :
  Q2Qc (Qpower x (Z.of_nat k)) = x ^ k.
Proof.
  induction k as [|k IH].
  - apply Qc_is_canon. reflexivity.
  - cbn [Qcpower]. rewrite <- IH. apply Qc_is_canon.
    cbn [this Q2Qc Qcmult]. rewrite !Qred_correct.
    replace (Z.of_nat (S k)) with (1 + Z.of_nat k)%Z by lia.
    rewrite Qpower.Qpower_plus' by lia. now rewrite Qpower.Qpower_1_r.
Qed.

Lemma py_pow_nonneg (x : Qc) (n : Z) :
  (0 <= n)%Z -> py_pow x n = Ok (x ^ Z.to_nat n).
Proof.
  intros Hn. unfold py_pow.
  replace (n <? 0)%Z with false by (symmetry; apply Z.ltb_ge; lia).
  cbn [andb]. rewrite <- Q2Qc_Qpower_nat. now rewrite Z2Nat.id.
Qed.

Lemma py_pow_raises (x : Qc) (n : Z) (e : exn) :
  py_pow x n = Raise e -> e = ZeroDivisionError.
Proof.
  unfold py_pow. destruct (_ && _); [|discriminate]. now intros [= <-].
Qed.

Lemma this_Q2Qc (q : Q) : (this (Q2Qc q) == q)%Q.
Proof. apply Qred_correct. Qed.

Lemma this_Qcplus (x y : Qc) : (this (x + y) == this x + this y)%Q.
Proof. apply Qred_correct. Qed.

Lemma this_Qcinv (x : Qc) : (this (/ x) == / this x)%Q.
Proof. apply Qred_correct. Qed.

Lemma this_Qcmult (x y : Qc) : (this (x * y) == this x * this y)%Q.
Proof. apply Qred_correct. Qed.

Lemma Qclt_plus_pos (r : Qc) : 0 < r -> 1 < 1 + r.
Proof.
  unfold Qclt. rewrite this_Qcplus, !this_Q2Qc.
  intros H. rewrite <- (Qplus_0_r 1) at 1. apply Qplus_lt_r. exact H.
Qed.

Lemma Qcpower_gt_1 (x : Qc) (k : nat) :
  1 < x -> (0 < k)%nat -> 1 < x ^ k.
Proof.
  intros Hx Hk. rewrite <- Q2Qc_Qpower_nat.
  unfold Qclt in *. rewrite this_Q2Qc in Hx. rewrite !this_Q2Qc.
  apply Qpower.Qpower_1_lt; [exact Hx | lia].
Qed.

Lemma Qcminus_neq_0 (x y : Qc) : y < x -> x - y <> 0.
Proof.
  intros H E. assert (x = y) as ->.
  { replace x with (x - y + y) by ring. rewrite E. ring. }
  apply (Qclt_not_le _ _ H), Qcle_refl.
Qed.

Lemma Qcle_bool_iff (x y : Qc) : Qcle_bool x y = true <-> x <= y.
Proof. apply Qle_bool_iff. Qed.

Lemma Qcinv_pos (y : Qc) : 0 < y -> 0 < / y.
Proof.
  unfold Qclt. rewrite this_Qcinv, !this_Q2Qc. apply Qinv_lt_0_compat.
Qed.

Lemma Qcdiv_pos (x y : Qc) : 0 < x -> 0 < y -> 0 < x / y.
Proof.
  intros Hx Hy. unfold Qcdiv.
  replace 0 with (0 * / y) by ring.
  apply Qcmult_lt_compat_r; [now apply Qcinv_pos | exact Hx].
Qed.

(** ** The monthly payment *)

Lemma monthly_interest_rate_pos (p : InvestmentParameters) :
  0 < annual_interest_rate p -> 0 < monthly_interest_rate p.
Proof.
  intros H. unfold monthly_interest_rate.
  repeat apply Qcdiv_pos; try exact H; reflexivity.
Qed.

(** In exact arithmetic, with a positive rate and a positive term neither
    power nor the division raises, and [M] is the amortization formula. *)
Lemma M_ok (p : InvestmentParameters) :
  0 < annual_interest_rate p -> (0 < loan_term_years p)%Z ->
  let r := monthly_interest_rate p in
  let n := Z.to_nat (number_of_payments p) in
  (1 + r) ^ n - 1 <> 0 /\
  M p = Ok (loan_amount p * (r * (1 + r) ^ n) / ((1 + r) ^ n - 1)).
Proof.
  intros Hr Hn r n.
  assert (Hd : (1 + r) ^ n - 1 <> 0).
  { apply Qcminus_neq_0, Qcpower_gt_1.
    - now apply Qclt_plus_pos, monthly_interest_rate_pos.
    - unfold n, number_of_payments. lia. }
  split; [exact Hd|].
  unfold M. rewrite py_pow_nonneg by (unfold number_of_payments; lia).
  cbn [bind]. now apply py_div_ok.
Qed.

Lemma M_default_bounds :
  exists m, M default_parameters = Ok m /\
    114580 / 100 - 1 / 100 <= m /\ m <= 114580 / 100 + 1 / 100.
Proof.
  assert (H : match M default_parameters with
              | Ok m => Qcle_bool (114580 / 100 - 1 / 100) m
                        && Qcle_bool m (114580 / 100 + 1 / 100)
              | Raise _ => false
              end = true) by (vm_compute; reflexivity).
  destruct (M default_parameters) as [m|]; [|discriminate].
  apply andb_true_iff in H. destruct H as [H1 H2].
  exists m. repeat split; now apply Qcle_bool_iff.
Qed.

(** C1.  With a positive interest rate and a positive loan term, whenever
    the payment formula returns a monthly payment [M]: the loan amount is
    the price less the down payment, [M] is the fixed-rate amortization
    formula [L r (1+r)^n / ((1+r)^n - 1)] with [r = rate/12/100] and
    [n = 12 * term] (its divisor is not zero), and the annual mortgage
    payment is [12 M].  For the default loan (300000 at 20% down, 4% over
    30 years) the formula returns, the loan amount is 240000 and [M] is
    within 0.01 of 1145.80. *)
Theorem monthly_payment_amortization :
  (forall (p : InvestmentParameters) (m : Qc),
     0 < annual_interest_rate p -> (0 < loan_term_years p)%Z ->
     M p = Ok m ->
     let r := annual_interest_rate p / 12 / 100 in
     let n := Z.to_nat (loan_term_years p * 12) in
     let L := purchase_price p
              - purchase_price p * down_payment_percent p / 100 in
     loan_amount p = L /\
     (1 + r) ^ n - 1 <> 0 /\
     m = L * r * (1 + r) ^ n / ((1 + r) ^ n - 1) /\
     annual_mortgage_payment p = Ok (12 * m)) /\
  loan_amount default_parameters = 240000 /\
  (exists m, M default_parameters = Ok m /\
     114580 / 100 - 1 / 100 <= m /\ m <= 114580 / 100 + 1 / 100).
Proof.
  split; [|split].
  - intros p m Hr Hn Hm r n L.
    destruct (M_ok p Hr Hn) as [Hd HM].
    fold (monthly_interest_rate p) in r.
    fold (number_of_payments p) in n.
    rewrite Hm in HM. injection HM as HM.
    split; [reflexivity|]. split; [exact Hd|]. split.
    + rewrite HM. unfold L, loan_amount, down_payment.
      fold r n. field. split; [Qc_neq | exact Hd].
    + unfold annual_mortgage_payment. rewrite Hm. cbn [bind].
      f_equal. ring.
  - apply Qc_is_canon. reflexivity.
  - exact M_default_bounds.
Qed.

Lemma monthly_payment_amortization_witness :
  exists m,
    0 < annual_interest_rate default_parameters /\
    (0 < loan_term_years default_parameters)%Z /\
    M default_parameters = Ok m /\
    annual_mortgage_payment default_parameters = Ok (12 * m).
Proof.
  assert (Hr : 0 < annual_interest_rate default_parameters) by reflexivity.
  assert (Hn : (0 < loan_term_years default_parameters)%Z) by reflexivity.
  destruct M_default_bounds as (m & Hm & _).
  exists m. split; [exact Hr|]. split; [exact Hn|]. split; [exact Hm|].
  exact (proj2 (proj2 (proj2
           (proj1 monthly_payment_amortization default_parameters m
              Hr Hn Hm)))).
Defined.

(** ** Lists and loops *)

Lemma py_range_length (a b : Z) : length (py_range a b) = Z.to_nat (b - a).
Proof. unfold py_range. now rewrite length_map, length_seq. Qed.

Lemma py_last_snoc {A : Type} (l : list A) (a : A) : py_last (l ++ [a]) = Ok a.
Proof.
  induction l as [|b l IH]; [reflexivity|].
  cbn [app py_last]. destruct (l ++ [a]) eqn:E; [|exact IH].
  now destruct l.
Qed.

Lemma py_last_inv {A : Type} (l : list A) (a : A) :
  py_last l = Ok a -> l = removelast l ++ [a].
Proof.
  induction l as [|b l IH]; [discriminate|].
  destruct l as [|c l]; [now intros [= ->]|].
  intros H. change (removelast (b :: c :: l)) with (b :: removelast (c :: l)).
  cbn [app]. f_equal. now apply IH.
Qed.

Lemma py_last_raises {A : Type} (l : list A) (e : exn) :
  py_last l = Raise e -> l = [] /\ e = IndexError.
Proof.
  induction l as [|b l IH]; [now intros [= <-]|].
  destruct l as [|c l]; [discriminate|].
  intros H. now destruct (IH H).
Qed.

Lemma repeat_snoc {A : Type} (a : A) (n : nat) :
  repeat a (S n) = repeat a n ++ [a].
Proof. induction n as [|n IH]; [reflexivity|]. cbn in *. now rewrite <- IH. Qed.

Lemma nth_error_map_seq {A : Type} (f : nat -> A) (n k : nat) :
  (k < n)%nat -> nth_error (map f (seq 0 n)) k = Some (f k).
Proof.
  intros H. rewrite nth_error_map, nth_error_seq.
  destruct (Nat.ltb_spec k n); [reflexivity | lia].
Qed.

(** A loop whose body ignores the loop variable runs its body once per
    element. *)
Lemma fold_left_iter {S I : Type} (f : S -> I -> S) (i0 : I) (l : list I)
    (s : S) :
  (forall s i, f s i = f s i0) ->
  fold_left f l s = Nat.iter (length l) (fun s => f s i0) s.
Proof.
  intros Hf. induction l as [|i l IH] using rev_ind; [reflexivity|].
  rewrite fold_left_app, length_app, Nat.add_comm. cbn. now rewrite Hf, IH.
Qed.

Lemma yearly_loop_after_years (p : InvestmentParameters) (m cf : Qc) :
  yearly_loop p m cf
  = after_years p m cf (Z.to_nat (holding_period_years p)).
Proof.
  unfold yearly_loop, after_years.
  rewrite (fold_left_iter _ 0%Z) by reflexivity.
  rewrite py_range_length. f_equal. lia.
Qed.

Lemma after_years_S (p : InvestmentParameters) (m cf : Qc) (n : nat) :
  after_years p m cf (S n) = loop_body p m cf (after_years p m cf n) 0%Z.
Proof. reflexivity. Qed.

(** The state after [n] passes, in closed form. *)
Lemma after_years_spec (p : InvestmentParameters) (m cf : Qc) (n : nat) :
  let s := after_years p m cf n in
  property_value s = value_after p n /\
  mortgage_balance s = balance_after p m n /\
  property_value_list s = map (fun k => value_after p (S k)) (seq 0 n) /\
  mortgage_balance_list s = map (fun k => balance_after p m (S k)) (seq 0 n) /\
  equity_list s
  = map (fun k => value_after p (S k) - balance_after p m (S k)) (seq 0 n) /\
  annual_cash_flow_list s = repeat cf n.
Proof.
  induction n as [|n IH].
  - cbn. unfold value_after. repeat split. cbn. ring.
  - cbn zeta in *. destruct IH as (Hv & Hb & Hvl & Hbl & Hel & Hcl).
    rewrite after_years_S. unfold loop_body.
    cbn [property_value mortgage_balance property_value_list
         mortgage_balance_list equity_list annual_cash_flow_list].
    rewrite Hv, Hb, Hvl, Hbl, Hel, Hcl.
    assert (Hv' : value_after p n * (1 + appreciation_rate p / 100)
                  = value_after p (S n)).
    { unfold value_after. cbn [Qcpower]. ring. }
    assert (Hb' : balance_after p m n * (1 + monthly_interest_rate p) ^ 12
                  - m * 12 = balance_after p m (S n)).
    { cbn [balance_after]. ring. }
    rewrite Hv', Hb', !seq_S, !map_app, repeat_snoc. cbn [map Nat.add].
    repeat split.
Qed.

Lemma py_last_repeat {A : Type} (a : A) (n : nat) :
  py_last (repeat a n)
  = match n with O => Raise IndexError | S _ => Ok a end.
Proof.
  destruct n as [|n]; [reflexivity|]. rewrite repeat_snoc. apply py_last_snoc.
Qed.

Lemma removelast_repeat {A : Type} (a : A) (n : nat) :
  removelast (repeat a n) = repeat a (n - 1).
Proof.
  destruct n as [|n]; [reflexivity|].
  rewrite repeat_snoc, removelast_last. f_equal. lia.
Qed.

(** ** [calculate_real_estate_investment]: when it returns, and what *)

Section RealEstate.

Variable irr : list Qc -> npfloat.
Variable p : InvestmentParameters.

Let years : nat := Z.to_nat (holding_period_years p).

(** The function returns exactly when the payment is defined, the initial
    cash investment is not zero and the holding period is positive. *)
Lemma calculate_real_estate_investment_returns (m : Qc) :
  M p = Ok m -> initial_cash_investment p <> 0 ->
  (0 < holding_period_years p)%Z ->
  exists re, calculate_real_estate_investment irr p = Ok re.
Proof.
  intros HM Hi Hh. unfold calculate_real_estate_investment.
  rewrite HM. cbn [bind]. rewrite py_div_ok by exact Hi. cbn [bind].
  rewrite yearly_loop_after_years.
  destruct (after_years_spec p m (NOI p - m * 12)
              (Z.to_nat (holding_period_years p)))
    as (_ & _ & _ & _ & _ & Hcl).
  cbn zeta in Hcl. rewrite Hcl, py_last_repeat.
  destruct (Z.to_nat (holding_period_years p)) eqn:E; [lia|].
  cbn [bind]. eexists. reflexivity.
Qed.

Lemma calculate_real_estate_investment_inv (re : RealEstateResult.t) :
  calculate_real_estate_investment irr p = Ok re ->
  exists m,
    M p = Ok m /\ initial_cash_investment p <> 0 /\
    (0 < holding_period_years p)%Z /\
    let cf := NOI p - m * 12 in
    let s := after_years p m cf years in
    RealEstateResult.annual_cash_flow re = cf /\
    RealEstateResult.initial_cash_investment re = initial_cash_investment p /\
    RealEstateResult.cash_on_cash_return re
    = cf / initial_cash_investment p * 100 /\
    RealEstateResult.equity_at_sale re
    = property_value s - mortgage_balance s - selling_costs p s /\
    RealEstateResult.equity_list re = equity_list s /\
    RealEstateResult.property_value_list re = property_value_list s /\
    RealEstateResult.mortgage_balance_list re = mortgage_balance_list s /\
    RealEstateResult.annual_cash_flow_list re = repeat cf years /\
    RealEstateResult.cash_flows re
    = [- initial_cash_investment p] ++ repeat cf (years - 1)
      ++ [cf + RealEstateResult.equity_at_sale re] /\
    RealEstateResult.NPV re
    = npv (expected_annual_return_rate p / 100)
        (RealEstateResult.cash_flows re) /\
    RealEstateResult.IRR re = irr (RealEstateResult.cash_flows re).
Proof.
  unfold calculate_real_estate_investment.
  destruct (M p) as [m|e]; [|discriminate]. cbn [bind].
  destruct (py_div _ _) as [q|e] eqn:Hq; [|discriminate]. cbn [bind].
  apply py_div_inv in Hq. destruct Hq as [Hi ->].
  rewrite yearly_loop_after_years. fold years.
  destruct (after_years_spec p m (NOI p - m * 12) years)
    as (_ & _ & _ & _ & _ & Hcl).
  cbn zeta in Hcl. rewrite Hcl, py_last_repeat, removelast_repeat.
  destruct years as [|n] eqn:E; [discriminate|]. cbn [bind].
  intros [= <-]. exists m. cbn.
  repeat split; try assumption; try reflexivity.
  subst years. lia.
Qed.

End RealEstate.

(** ** The cash flows and the yearly sequences *)

(** C2.  With a positive holding period, the cash flows of a real-estate
    result are the initial outlay, then the constant annual cash flow once
    per year, the last one with the equity at sale added: holding period
    plus one entries.  The four yearly sequences have holding-period many
    entries.  For a holding period of one year the cash flows are the two
    entries [-initial; annual + equity at sale]. *)
Theorem real_estate_cash_flows_shape :
  forall (irr : list Qc -> npfloat) (p : InvestmentParameters)
         (re : RealEstateResult.t),
    (0 < holding_period_years p)%Z ->
    calculate_real_estate_investment irr p = Ok re ->
    let h := holding_period_years p in
    let cf := RealEstateResult.annual_cash_flow re in
    RealEstateResult.cash_flows re
    = [- RealEstateResult.initial_cash_investment re]
      ++ repeat cf (Z.to_nat (h - 1))
      ++ [cf + RealEstateResult.equity_at_sale re] /\
    Z.of_nat (length (RealEstateResult.cash_flows re)) = (h + 1)%Z /\
    Z.of_nat (length (RealEstateResult.property_value_list re)) = h /\
    Z.of_nat (length (RealEstateResult.mortgage_balance_list re)) = h /\
    Z.of_nat (length (RealEstateResult.equity_list re)) = h /\
    Z.of_nat (length (RealEstateResult.annual_cash_flow_list re)) = h /\
    (h = 1%Z ->
     RealEstateResult.cash_flows re
     = [- RealEstateResult.initial_cash_investment re;
        cf + RealEstateResult.equity_at_sale re]).
Proof.
  intros irr p re Hh Hre h cf.
  destruct (calculate_real_estate_investment_inv irr p re Hre)
    as (m & _ & _ & _ & Hinv).
  cbn zeta in Hinv.
  destruct Hinv as (Hcf & Hi & _ & _ & Hel & Hvl & Hbl & Hcl & Hfl & _).
  destruct (after_years_spec p m (NOI p - m * 12)
              (Z.to_nat (holding_period_years p)))
    as (_ & _ & Hvl' & Hbl' & Hel' & _).
  cbn zeta in *.
  assert (Hfl' : RealEstateResult.cash_flows re
                 = [- RealEstateResult.initial_cash_investment re]
                   ++ repeat cf (Z.to_nat (h - 1))
                   ++ [cf + RealEstateResult.equity_at_sale re]).
  { rewrite Hfl, Hi. unfold cf. rewrite Hcf. do 3 f_equal.
    unfold h. lia. }
  split; [exact Hfl'|].
  split. { rewrite Hfl'. cbn [app length].
           rewrite length_app, repeat_length. cbn [length]. lia. }
  split. { rewrite Hvl, Hvl', length_map, length_seq. unfold h. lia. }
  split. { rewrite Hbl, Hbl', length_map, length_seq. unfold h. lia. }
  split. { rewrite Hel, Hel', length_map, length_seq. unfold h. lia. }
  split. { rewrite Hcl, repeat_length. unfold h. lia. }
  intros H1. rewrite Hfl', H1. reflexivity.
Qed.

Lemma real_estate_cash_flows_shape_witness :
  exists re,
    calculate_real_estate_investment irr_undefined short_parameters = Ok re /\
    Z.of_nat (length (RealEstateResult.cash_flows re)) = 3%Z /\
    Z.of_nat (length (RealEstateResult.equity_list re)) = 2%Z.
Proof.
  destruct (calculate_real_estate_investment irr_undefined short_parameters)
    as [re|e] eqn:E; [|vm_compute in E; discriminate E].
  exists re. split; [reflexivity|].
  assert (Hh : (0 < holding_period_years short_parameters)%Z) by reflexivity.
  pose proof (real_estate_cash_flows_shape irr_undefined short_parameters
                re Hh E) as H.
  cbn zeta in H. destruct H as (_ & H1 & _ & _ & H2 & _).
  split; [exact H1 | exact H2].
Defined.

(** C3.  With a positive holding period, in every year [y] of it the
    recorded property value is the price compounded [y] times by
    [1 + appreciation/100], the recorded mortgage balance is the previous
    one (the loan amount before year 1) times [(1+r)^12] less [12 M], and
    the recorded equity is their difference; the equity at sale is the last
    property value less the last balance less the selling costs, which are
    the selling-cost percentage of the last property value. *)
Theorem real_estate_yearly_sequences :
  forall (irr : list Qc -> npfloat) (p : InvestmentParameters)
         (re : RealEstateResult.t),
    (0 < holding_period_years p)%Z ->
    calculate_real_estate_investment irr p = Ok re ->
    let r := annual_interest_rate p / 12 / 100 in
    let balances := loan_amount p :: RealEstateResult.mortgage_balance_list re in
    exists m, M p = Ok m /\
      (forall y : nat,
         (1 <= y)%nat -> (Z.of_nat y <= holding_period_years p)%Z ->
         exists value previous balance,
           nth_error (RealEstateResult.property_value_list re) (y - 1)
           = Some value /\
           nth_error balances (y - 1) = Some previous /\
           nth_error balances y = Some balance /\
           value = purchase_price p * (1 + appreciation_rate p / 100) ^ y /\
           balance = previous * (1 + r) ^ 12 - 12 * m /\
           nth_error (RealEstateResult.equity_list re) (y - 1)
           = Some (value - balance)) /\
      (exists final_value final_balance,
         py_last (RealEstateResult.property_value_list re) = Ok final_value /\
         py_last (RealEstateResult.mortgage_balance_list re)
         = Ok final_balance /\
         let selling_costs := final_value * selling_costs_percent p / 100 in
         RealEstateResult.equity_at_sale re
         = final_value - final_balance - selling_costs).
Proof.
  intros irr p re Hh Hre r balances.
  destruct (calculate_real_estate_investment_inv irr p re Hre)
    as (m & HM & _ & _ & Hinv).
  cbn zeta in Hinv.
  destruct Hinv as (_ & _ & _ & Heq & Hel & Hvl & Hbl & _).
  destruct (after_years_spec p m (NOI p - m * 12)
              (Z.to_nat (holding_period_years p)))
    as (Hv' & Hb' & Hvl' & Hbl' & Hel' & _).
  cbn zeta in *.
  set (n := Z.to_nat (holding_period_years p)) in *.
  exists m. split; [exact HM|]. split.
  - intros y Hy1 Hyh.
    destruct y as [|k]; [lia|]. replace (S k - 1)%nat with k by lia.
    assert (Hk : (k < n)%nat) by (unfold n; lia).
    exists (value_after p (S k)), (balance_after p m k),
           (balance_after p m (S k)).
    unfold balances. rewrite Hvl, Hvl', Hel, Hel', Hbl, Hbl'.
    rewrite !nth_error_map_seq by exact Hk.
    repeat split.
    + destruct k as [|k]; [reflexivity|].
      cbn [nth_error]. now rewrite nth_error_map_seq by lia.
    + cbn [nth_error].
      exact (nth_error_map_seq (fun k => balance_after p m (S k)) n k Hk).
  - destruct n as [|n'] eqn:En; [unfold n in En; lia|].
    exists (value_after p (S n')), (balance_after p m (S n')).
    rewrite Hvl, Hvl', Hbl, Hbl', !seq_S, !map_app. cbn [map Nat.add].
    rewrite !py_last_snoc. repeat split.
    rewrite Heq. unfold selling_costs. now rewrite Hv', Hb'.
Qed.

Lemma real_estate_yearly_sequences_witness :
  exists re m,
    calculate_real_estate_investment irr_undefined short_parameters = Ok re /\
    M short_parameters = Ok m /\
    nth_error (RealEstateResult.property_value_list re) 1
    = Some (300000 * (1 + 3 / 100) ^ 2).
Proof.
  destruct (calculate_real_estate_investment irr_undefined short_parameters)
    as [re|e] eqn:E; [|vm_compute in E; discriminate E].
  assert (Hh : (0 < holding_period_years short_parameters)%Z) by reflexivity.
  destruct (real_estate_yearly_sequences irr_undefined short_parameters
              re Hh E) as (m & HM & Hy & _).
  exists re, m. split; [reflexivity|]. split; [exact HM|].
  destruct (Hy 2%nat) as (v & b0 & b & Hv & _ & _ & -> & _);
    [lia | cbn; lia |].
  exact Hv.
Defined.

(** ** The annual cash flow *)

Lemma default_cash_flow_bounds :
  exists m, M default_parameters = Ok m /\
    let cf := NOI default_parameters - m * 12 in
    let coc := cf / initial_cash_investment default_parameters * 100 in
    (30504 / 10 - 5 / 100 <= cf /\ cf <= 30504 / 10 + 5 / 100) /\
    (407 / 100 - 5 / 1000 <= coc /\ coc <= 407 / 100 + 5 / 1000).
Proof.
  assert (H : match M default_parameters with
              | Ok m =>
                  let cf := NOI default_parameters - m * 12 in
                  let coc :=
                    cf / initial_cash_investment default_parameters * 100 in
                  (Qcle_bool (30504 / 10 - 5 / 100) cf
                   && Qcle_bool cf (30504 / 10 + 5 / 100))
                  && (Qcle_bool (407 / 100 - 5 / 1000) coc
                      && Qcle_bool coc (407 / 100 + 5 / 1000))
              | Raise _ => false
              end = true) by (vm_compute; reflexivity).
  destruct (M default_parameters) as [m|]; [|discriminate].
  cbn zeta in H. rewrite !andb_true_iff, !Qcle_bool_iff in H.
  exists m. split; [reflexivity | exact H].
Qed.

(** C4.  The annual cash flow of a real-estate result is the rent of twelve
    months less the operating-expense share, less the annual mortgage
    payment [12 M]; every entry of the yearly cash-flow sequence is this
    same number, and the cash-on-cash return is it over the initial cash
    investment, times 100.  With the default parameters the initial cash
    investment is 75000, the annual cash flow is 3050.4 to within 0.05 and
    the cash-on-cash return is 4.07 to within 0.005. *)
Theorem annual_cash_flow_constant :
  (forall (irr : list Qc -> npfloat) (p : InvestmentParameters)
          (re : RealEstateResult.t),
     calculate_real_estate_investment irr p = Ok re ->
     exists m, M p = Ok m /\
       RealEstateResult.annual_cash_flow re
       = monthly_rental_income p * 12
         * (1 - operating_expenses_percent p / 100) - 12 * m /\
       Forall (fun cf => cf = RealEstateResult.annual_cash_flow re)
         (RealEstateResult.annual_cash_flow_list re) /\
       RealEstateResult.cash_on_cash_return re
       = RealEstateResult.annual_cash_flow re
         / RealEstateResult.initial_cash_investment re * 100) /\
  (forall irr : list Qc -> npfloat,
     exists re,
       calculate_real_estate_investment irr default_parameters = Ok re /\
       RealEstateResult.initial_cash_investment re = 75000 /\
       (30504 / 10 - 5 / 100 <= RealEstateResult.annual_cash_flow re /\
        RealEstateResult.annual_cash_flow re <= 30504 / 10 + 5 / 100) /\
       (407 / 100 - 5 / 1000 <= RealEstateResult.cash_on_cash_return re /\
        RealEstateResult.cash_on_cash_return re <= 407 / 100 + 5 / 1000)).
Proof.
  split.
  - intros irr p re Hre.
    destruct (calculate_real_estate_investment_inv irr p re Hre)
      as (m & HM & _ & _ & Hinv).
    cbn zeta in Hinv. destruct Hinv as (Hcf & Hi & Hc & _ & _ & _ & _ & Hcl & _).
    exists m. split; [exact HM|]. split; [|split].
    + rewrite Hcf. unfold NOI, operating_expenses, annual_rental_income.
      field. Qc_neq.
    + rewrite Hcl, Hcf. apply Forall_forall. intros cf Hin.
      now apply repeat_spec in Hin.
    + now rewrite Hc, Hcf, Hi.
  - intros irr.
    destruct default_cash_flow_bounds as (m & HM & Hb). cbn zeta in Hb.
    assert (Hi : initial_cash_investment default_parameters = 75000)
      by (apply Qc_is_canon; reflexivity).
    destruct (calculate_real_estate_investment_returns irr
                default_parameters m HM) as [re Hre].
    { rewrite Hi. Qc_neq. }
    { reflexivity. }
    exists re. split; [exact Hre|].
    destruct (calculate_real_estate_investment_inv irr _ re Hre)
      as (m' & HM' & _ & _ & Hinv).
    rewrite HM in HM'. injection HM' as <-.
    cbn zeta in Hinv. destruct Hinv as (Hcf & Hi' & Hc & _).
    rewrite Hcf, Hc, Hi'. split; [exact Hi | exact Hb].
Qed.

Lemma annual_cash_flow_constant_witness :
  exists re,
    calculate_real_estate_investment irr_undefined short_parameters = Ok re /\
    Forall (fun cf => cf = RealEstateResult.annual_cash_flow re)
      (RealEstateResult.annual_cash_flow_list re).
Proof.
  destruct (calculate_real_estate_investment irr_undefined short_parameters)
    as [re|e] eqn:E; [|vm_compute in E; discriminate E].
  exists re. split; [reflexivity|].
  destruct (proj1 annual_cash_flow_constant irr_undefined short_parameters
              re E) as (m & _ & _ & H & _).
  exact H.
Defined.

(** ** [calculate_stock_investment] *)

Lemma py_last_map_seq {A : Type} (f : nat -> A) (n : nat) :
  py_last (map f (seq 0 (S n))) = Ok (f n).
Proof. rewrite seq_S, map_app. apply py_last_snoc. Qed.

Lemma portfolio_after_S (p : InvestmentParameters) (y : nat) :
  portfolio_after p (S y)
  = portfolio_after p y
    + portfolio_after p y * expected_annual_return_rate p / 100.
Proof. unfold portfolio_after. cbn [Qcpower]. field. Qc_neq. Qed.

(** The loop never raises: the list it indexes is never empty. *)
Lemma stock_loop_spec (p : InvestmentParameters) :
  let n := Z.to_nat (holding_period_years p) in
  stock_loop p
  = Ok {| portfolio_values := map (portfolio_after p) (seq 0 (S n));
          annual_returns :=
            map (fun k => portfolio_after p k
                          * expected_annual_return_rate p / 100) (seq 0 n) |}.
Proof.
  intros n. unfold stock_loop.
  rewrite (fold_left_iter _ 0%Z) by reflexivity.
  rewrite py_range_length.
  replace (Z.to_nat (holding_period_years p + 1 - 1)) with n by (unfold n; lia).
  clearbody n. induction n as [|n IH].
  - cbn. do 3 f_equal. unfold portfolio_after. cbn [Qcpower]. ring.
  - rewrite Nat.iter_succ, IH. unfold stock_body.
    cbn [bind portfolio_values annual_returns].
    rewrite py_last_map_seq. cbn [bind].
    rewrite (seq_S (S n)), (seq_S n), !map_app. cbn [map Nat.add].
    now rewrite <- portfolio_after_S.
Qed.

Lemma calculate_stock_investment_spec (irr : list Qc -> npfloat)
    (p : InvestmentParameters) :
  let n := Z.to_nat (holding_period_years p) in
  let returns :=
    map (fun k => portfolio_after p k * expected_annual_return_rate p / 100)
      (seq 0 n) in
  let cash_flows := - initial_stock_investment p :: returns in
  calculate_stock_investment irr p
  = Ok {| StockResult.portfolio_values :=
            map (portfolio_after p) (seq 0 (S n));
          StockResult.annual_returns := returns;
          StockResult.NPV :=
            npv (expected_annual_return_rate p / 100) cash_flows;
          StockResult.IRR := irr cash_flows;
          StockResult.cash_flows := cash_flows |}.
Proof.
  intros n returns cash_flows. unfold calculate_stock_investment.
  rewrite stock_loop_spec. reflexivity.
Qed.

(** C5.  With a positive holding period the stock computation returns a
    result in which the portfolio starts at the initial investment, every
    year's return is the previous portfolio value times the expected return
    percentage, the year's portfolio value is the previous one plus that
    return, which is the initial investment compounded [year] times;
    there are holding period plus one portfolio values, holding-period many
    returns, and the cash flows are the negated initial investment followed
    by the returns. *)
Theorem stock_projection :
  forall (irr : list Qc -> npfloat) (p : InvestmentParameters),
    (0 < holding_period_years p)%Z ->
    let h := holding_period_years p in
    let rate := expected_annual_return_rate p in
    exists st,
      calculate_stock_investment irr p = Ok st /\
      nth_error (StockResult.portfolio_values st) 0
      = Some (initial_stock_investment p) /\
      (forall year : nat,
         (1 <= year)%nat -> (Z.of_nat year <= h)%Z ->
         exists previous annual_return value,
           nth_error (StockResult.portfolio_values st) (year - 1)
           = Some previous /\
           nth_error (StockResult.annual_returns st) (year - 1)
           = Some annual_return /\
           nth_error (StockResult.portfolio_values st) year = Some value /\
           annual_return = previous * rate / 100 /\
           value = previous + annual_return /\
           value = initial_stock_investment p * (1 + rate / 100) ^ year) /\
      Z.of_nat (length (StockResult.portfolio_values st)) = (h + 1)%Z /\
      Z.of_nat (length (StockResult.annual_returns st)) = h /\
      StockResult.cash_flows st
      = - initial_stock_investment p :: StockResult.annual_returns st.
Proof.
  intros irr p Hh h rate. eexists. split.
  { apply calculate_stock_investment_spec. }
  cbn [StockResult.portfolio_values StockResult.annual_returns
       StockResult.cash_flows].
  set (n := Z.to_nat (holding_period_years p)).
  split; [|split; [|split; [|split]]].
  - cbn. f_equal. unfold portfolio_after. cbn [Qcpower]. ring.
  - intros year H1 H2. destruct year as [|k]; [lia|].
    replace (S k - 1)%nat with k by lia.
    assert (Hk : (k < n)%nat) by (unfold n, h in *; lia).
    exists (portfolio_after p k),
           (portfolio_after p k * rate / 100),
           (portfolio_after p (S k)).
    rewrite !nth_error_map_seq by lia.
    repeat split. apply portfolio_after_S.
  - rewrite length_map, length_seq. unfold n, h. lia.
  - rewrite length_map, length_seq. unfold n, h. lia.
  - reflexivity.
Qed.

Lemma stock_projection_witness :
  exists st,
    calculate_stock_investment irr_undefined default_parameters = Ok st /\
    nth_error (StockResult.portfolio_values st) 0 = Some (Z2Qc 75000) /\
    Z.of_nat (length (StockResult.portfolio_values st)) = 6%Z.
Proof.
  assert (Hh : (0 < holding_period_years default_parameters)%Z) by reflexivity.
  destruct (stock_projection irr_undefined default_parameters Hh)
    as (st & Hst & H0 & _ & Hl & _).
  exists st. split; [exact Hst|]. split; [exact H0 | exact Hl].
Defined.

(** ** Net present value *)

Lemma discounted_sum_present_value (d : Qc) (values : list Qc) (t0 : nat) :
  discounted_sum (1 + d) t0 values
  = fold_right Qcplus 0
      (map (fun tv : nat * Qc => snd tv / (1 + d) ^ fst tv)
         (combine (seq t0 (length values)) values)).
Proof.
  revert t0. induction values as [|v values IH]; intros t0; [reflexivity|].
  cbn [discounted_sum length seq combine map fold_right fst snd].
  now rewrite IH.
Qed.

Lemma npv_present_value (d : Qc) (values : list Qc) :
  1 + d <> 0 -> npv d values = Fin (present_value d values).
Proof.
  intros H. unfold npv, present_value. rewrite Qc_eq_bool_false by exact H.
  now rewrite discounted_sum_present_value.
Qed.

(** C6.  Both results carry as NPV the net present value of their own
    cash flows at the discount rate [expected_annual_return_rate / 100]:
    the real-estate model discounts at the stock model's expected return,
    as the stock model does; and that net present value is the sum of
    [cash_flows[t] / (1 + d) ^ t] (where [1 + d] is not zero). *)
Theorem npv_at_expected_stock_return :
  forall (irr : list Qc -> npfloat) (p : InvestmentParameters),
    let d := expected_annual_return_rate p / 100 in
    (forall re, calculate_real_estate_investment irr p = Ok re ->
       RealEstateResult.NPV re = npv d (RealEstateResult.cash_flows re)) /\
    (exists st, calculate_stock_investment irr p = Ok st /\
       StockResult.NPV st = npv d (StockResult.cash_flows st)) /\
    (1 + d <> 0 ->
     forall values, npv d values = Fin (present_value d values)).
Proof.
  intros irr p d. split; [|split].
  - intros re Hre.
    destruct (calculate_real_estate_investment_inv irr p re Hre)
      as (m & _ & _ & _ & Hinv).
    cbn zeta in Hinv. now destruct Hinv as (_ & _ & _ & _ & _ & _ & _ & _ & _ & H & _).
  - eexists. split; [apply calculate_stock_investment_spec | reflexivity].
  - intros H values. now apply npv_present_value.
Qed.

Lemma npv_at_expected_stock_return_witness :
  exists re,
    calculate_real_estate_investment irr_undefined short_parameters = Ok re /\
    RealEstateResult.NPV re
    = Fin (present_value (8 / 100) (RealEstateResult.cash_flows re)).
Proof.
  destruct (calculate_real_estate_investment irr_undefined short_parameters)
    as [re|e] eqn:E; [|vm_compute in E; discriminate E].
  exists re. split; [reflexivity|].
  destruct (npv_at_expected_stock_return irr_undefined short_parameters)
    as (Hre & _ & Hsum).
  rewrite (Hre re E). apply Hsum. Qc_neq.
Defined.

(** ** Zero denominators *)

Lemma py_pow_1 (n : Z) : py_pow 1 n = Ok 1.
Proof.
  unfold py_pow. rewrite (Qc_eq_bool_false 1 0) by Qc_neq.
  rewrite andb_false_r. f_equal. apply Qc_is_canon.
  rewrite this_Q2Qc. change (this 1) with 1%Q. apply Qpower.Qpower_1.
Qed.

(** An interest-free mortgage: [(1 + 0) ** n - 1] is zero. *)
Lemma M_zero_rate (p : InvestmentParameters) :
  annual_interest_rate p = 0 -> M p = Raise ZeroDivisionError.
Proof.
  intros H. unfold M, monthly_interest_rate. rewrite H.
  replace (1 + 0 / 12 / 100) with 1 by (field; split; Qc_neq).
  rewrite py_pow_1. cbn [bind]. unfold py_div.
  now rewrite (Qc_eq_bool_true (1 - 1) 0) by ring.
Qed.

Lemma zero_rate_raises :
  annual_interest_rate zero_rate_parameters = 0 /\
  calculate_real_estate_investment irr_undefined zero_rate_parameters
  = Raise ZeroDivisionError /\
  ~ exists re,
      calculate_real_estate_investment irr_undefined zero_rate_parameters
      = Ok re.
Proof.
  assert (H : calculate_real_estate_investment irr_undefined
                zero_rate_parameters = Raise ZeroDivisionError).
  { unfold calculate_real_estate_investment.
    now rewrite M_zero_rate by (apply Qc_is_canon; reflexivity). }
  split; [apply Qc_is_canon; reflexivity|]. split; [exact H|].
  intros [re Hre]. rewrite H in Hre. discriminate Hre.
Qed.

(** C7, as the code has it.  No zero denominator is guarded: with a zero
    mortgage rate, or with a zero initial cash investment once the payment
    formula has returned, the real-estate computation raises
    ZeroDivisionError; so does the payback period on a zero annual cash
    flow, the real-estate coefficient of variation on a zero IRR, and the
    stock coefficient of variation and payback period on a zero expected
    return. *)
Theorem zero_denominators_raise :
  (forall (irr : list Qc -> npfloat) (p : InvestmentParameters),
     annual_interest_rate p = 0 ->
     calculate_real_estate_investment irr p = Raise ZeroDivisionError) /\
  (forall (irr : list Qc -> npfloat) (p : InvestmentParameters) (m : Qc),
     M p = Ok m -> initial_cash_investment p = 0 ->
     calculate_real_estate_investment irr p = Raise ZeroDivisionError) /\
  (forall re : RealEstateResult.t,
     RealEstateResult.annual_cash_flow re = 0 ->
     payback_period_real_estate re = Raise ZeroDivisionError) /\
  (forall (p : InvestmentParameters) (re : RealEstateResult.t),
     RealEstateResult.IRR re = Fin 0 ->
     CV_real_estate p re = Raise ZeroDivisionError) /\
  (forall p : InvestmentParameters,
     expected_annual_return_rate p = 0 ->
     CV_stocks p = Raise ZeroDivisionError /\
     payback_period_stock p = Raise ZeroDivisionError).
Proof.
  split; [|split; [|split; [|split]]].
  - intros irr p H. unfold calculate_real_estate_investment.
    now rewrite M_zero_rate.
  - intros irr p m HM H. unfold calculate_real_estate_investment.
    rewrite HM. cbn [bind]. now rewrite H, py_div_zero.
  - intros re H. unfold payback_period_real_estate. now rewrite H.
  - intros p re H. unfold CV_real_estate, expected_return_real_estate.
    rewrite H. cbn [npfloat_scale div_by_npfloat]. unfold py_div.
    now rewrite (Qc_eq_bool_true (0 * 100) 0) by ring.
  - intros p H. split.
    + unfold CV_stocks. rewrite H. apply py_div_zero.
    + unfold payback_period_stock, annual_return_stock, py_div. rewrite H.
      now rewrite (Qc_eq_bool_true (initial_stock_investment p * 0 / 100) 0)
        by (field; Qc_neq).
Qed.

Lemma zero_denominators_raise_witness :
  annual_interest_rate zero_rate_parameters = 0 /\
  calculate_real_estate_investment irr_undefined zero_rate_parameters
  = Raise ZeroDivisionError.
Proof.
  assert (H : annual_interest_rate zero_rate_parameters = 0)
    by (apply Qc_is_canon; reflexivity).
  split; [exact H|].
  exact (proj1 zero_denominators_raise irr_undefined zero_rate_parameters H).
Defined.

(** ** Derived metrics *)

Lemma Qcopp_lt (x y : Qc) : x < y -> - y < - x.
Proof.
  intros H. apply Qclt_minus_iff. apply Qclt_minus_iff in H.
  replace (- x + - - y) with (y + - x) by ring. exact H.
Qed.

Lemma Qcdiv_neg (x y : Qc) : 0 < x -> y < 0 -> x / y < 0.
Proof.
  intros Hx Hy.
  assert (Hy' : 0 < - y).
  { replace 0 with (- 0) by ring. now apply Qcopp_lt. }
  assert (Hn : y <> 0).
  { intros ->. apply (Qclt_not_le _ _ Hy), Qcle_refl. }
  assert (Hn' : - y <> 0).
  { intros E. rewrite E in Hy'. apply (Qclt_not_le _ _ Hy'), Qcle_refl. }
  replace (x / y) with (- (x / - y)) by (field; now split).
  exact (Qcopp_lt 0 (x / - y) (Qcdiv_pos x (- y) Hx Hy')).
Qed.

(** C8.  Where the divisors are not zero: the coefficients of variation
    are the standard deviation over the IRR in percent (real estate) and
    over the expected return (stocks); the real returns are the IRR in
    percent, respectively the expected return, less inflation; the payback
    periods are the initial cash investment over the annual cash flow and
    the initial stock investment over its first annual return.  Where the
    annual flow is zero the payback period raises ZeroDivisionError, and
    where it is negative (on a positive investment) the quotient is a
    negative number of years. *)
Theorem derived_metrics :
  forall (p : InvestmentParameters) (re : RealEstateResult.t),
    (forall i, RealEstateResult.IRR re = Fin i -> i * 100 <> 0 ->
       CV_real_estate p re = Ok (Fin (std_dev_real_estate p / (i * 100)))) /\
    (expected_annual_return_rate p <> 0 ->
       CV_stocks p = Ok (std_dev_stocks p / expected_annual_return_rate p)) /\
    (forall i, RealEstateResult.IRR re = Fin i ->
       real_return_real_estate p re = Fin (i * 100 - inflation_rate p)) /\
    real_return_stocks p = expected_annual_return_rate p - inflation_rate p /\
    (RealEstateResult.annual_cash_flow re <> 0 ->
       payback_period_real_estate re
       = Ok (RealEstateResult.initial_cash_investment re
             / RealEstateResult.annual_cash_flow re)) /\
    (initial_stock_investment p * expected_annual_return_rate p / 100 <> 0 ->
       payback_period_stock p
       = Ok (initial_stock_investment p
             / (initial_stock_investment p
                * expected_annual_return_rate p / 100))) /\
    (RealEstateResult.annual_cash_flow re = 0 ->
       payback_period_real_estate re = Raise ZeroDivisionError) /\
    (RealEstateResult.annual_cash_flow re < 0 ->
     0 < RealEstateResult.initial_cash_investment re ->
       exists years, payback_period_real_estate re = Ok years /\ years < 0) /\
    (annual_return_stock p = 0 ->
       payback_period_stock p = Raise ZeroDivisionError) /\
    (annual_return_stock p < 0 -> 0 < initial_stock_investment p ->
       exists years, payback_period_stock p = Ok years /\ years < 0).
Proof.
  intros p re.
  assert (Hneg : forall y : Qc, y < 0 -> y <> 0).
  { intros y Hy ->. apply (Qclt_not_le _ _ Hy), Qcle_refl. }
  repeat split.
  - intros i Hi Hnz. unfold CV_real_estate, expected_return_real_estate.
    rewrite Hi. cbn [npfloat_scale div_by_npfloat].
    now rewrite py_div_ok by exact Hnz.
  - intros H. now apply py_div_ok.
  - intros i Hi. unfold real_return_real_estate, expected_return_real_estate.
    now rewrite Hi.
  - intros H. now apply py_div_ok.
  - intros H. now apply py_div_ok.
  - intros H. unfold payback_period_real_estate. now rewrite H.
  - intros Hcf Hi. eexists. split.
    + apply py_div_ok. exact (Hneg _ Hcf).
    + now apply Qcdiv_neg.
  - intros H. unfold payback_period_stock. now rewrite H.
  - intros Hr Hi. eexists. split.
    + apply py_div_ok. exact (Hneg _ Hr).
    + now apply Qcdiv_neg.
Qed.

Lemma derived_metrics_witness :
  expected_annual_return_rate default_parameters <> 0 /\
  CV_stocks default_parameters = Ok (15 / 8) /\
  payback_period_stock default_parameters
  = Ok (75000 / (75000 * 8 / 100)).
Proof.
  assert (H1 : expected_annual_return_rate default_parameters <> 0)
    by Qc_neq.
  assert (H2 : initial_stock_investment default_parameters
               * expected_annual_return_rate default_parameters / 100 <> 0)
    by Qc_neq.
  destruct (derived_metrics default_parameters
              {| RealEstateResult.annual_cash_flow := 1;
                 RealEstateResult.initial_cash_investment := 75000;
                 RealEstateResult.cash_on_cash_return := 0;
                 RealEstateResult.equity_at_sale := 0;
                 RealEstateResult.NPV := NaN;
                 RealEstateResult.IRR := Fin 1;
                 RealEstateResult.equity_list := [];
                 RealEstateResult.property_value_list := [];
                 RealEstateResult.mortgage_balance_list := [];
                 RealEstateResult.annual_cash_flow_list := [];
                 RealEstateResult.cash_flows := [] |})
    as (_ & Hcv & _ & _ & _ & Hpb & _).
  split; [exact H1|]. split; [exact (Hcv H1) | exact (Hpb H2)].
Defined.

(** ** A holding period of zero years *)

(** C10.  With a holding period of zero the yearly loop leaves its four
    lists empty and the real-estate computation returns no result: once
    the payment and the cash-on-cash return are through, indexing the last
    annual cash flow raises IndexError.  The stock computation returns the
    initial investment as its only portfolio value, no annual returns, and
    the negated initial investment as its only cash flow. *)
Theorem holding_period_zero :
  forall (irr : list Qc -> npfloat) (p : InvestmentParameters),
    holding_period_years p = 0%Z ->
    (forall m cf,
       let s := yearly_loop p m cf in
       property_value_list s = [] /\ mortgage_balance_list s = [] /\
       equity_list s = [] /\ annual_cash_flow_list s = []) /\
    (exists e, calculate_real_estate_investment irr p = Raise e) /\
    (forall m, M p = Ok m -> initial_cash_investment p <> 0 ->
       calculate_real_estate_investment irr p = Raise IndexError) /\
    (exists st,
       calculate_stock_investment irr p = Ok st /\
       StockResult.portfolio_values st = [initial_stock_investment p] /\
       StockResult.annual_returns st = [] /\
       StockResult.cash_flows st = [- initial_stock_investment p]).
Proof.
  intros irr p Hh.
  assert (Hloop : forall m cf, yearly_loop p m cf = loop_init p).
  { intros m cf. rewrite yearly_loop_after_years, Hh. reflexivity. }
  assert (Hidx : forall m, M p = Ok m -> initial_cash_investment p <> 0 ->
                 calculate_real_estate_investment irr p = Raise IndexError).
  { intros m HM Hi. unfold calculate_real_estate_investment.
    rewrite HM. cbn [bind]. rewrite py_div_ok by exact Hi. cbn [bind].
    now rewrite Hloop. }
  split; [|split; [|split]].
  - intros m cf. cbn zeta. rewrite Hloop. repeat split.
  - destruct (calculate_real_estate_investment irr p) as [re|e] eqn:E;
      [|now exists e].
    destruct (calculate_real_estate_investment_inv irr p re E)
      as (m & _ & _ & Hpos & _). lia.
  - exact Hidx.
  - eexists. split; [apply calculate_stock_investment_spec|].
    cbn [StockResult.portfolio_values StockResult.annual_returns
         StockResult.cash_flows].
    rewrite Hh. cbn. repeat split. do 2 f_equal.
    unfold portfolio_after. cbn [Qcpower]. ring.
Qed.

Lemma holding_period_zero_witness :
  holding_period_years no_holding_parameters = 0%Z /\
  calculate_real_estate_investment irr_undefined no_holding_parameters
  = Raise IndexError /\
  exists st,
    calculate_stock_investment irr_undefined no_holding_parameters = Ok st /\
    StockResult.cash_flows st = [- Z2Qc 75000].
Proof.
  assert (Hh : holding_period_years no_holding_parameters = 0%Z)
    by reflexivity.
  destruct (holding_period_zero irr_undefined no_holding_parameters Hh)
    as (_ & _ & Hidx & st & Hst & _ & _ & Hcf).
  split; [exact Hh|]. split.
  - destruct (M no_holding_parameters) as [m|e] eqn:HM;
      [|vm_compute in HM; discriminate HM].
    apply (Hidx m); [reflexivity | Qc_neq].
  - exists st. split; [exact Hst | exact Hcf].
Defined.

(** * Further properties *)

(** ** More on numbers *)

Lemma Qcmult_pos (x y : Qc) : 0 < x -> 0 < y -> 0 < x * y.
Proof.
  intros Hx Hy. replace 0 with (0 * y) by ring.
  now apply Qcmult_lt_compat_r.
Qed.

Lemma Qcmult_nonneg (x y : Qc) : 0 <= x -> 0 <= y -> 0 <= x * y.
Proof.
  intros Hx Hy. replace 0 with (0 * y) by ring.
  now apply Qcmult_le_compat_r.
Qed.

Lemma Qcplus_nonneg (x y : Qc) : 0 <= x -> 0 <= y -> 0 <= x + y.
Proof.
  intros Hx Hy. replace 0 with (0 + 0) by ring.
  now apply Qcplus_le_compat.
Qed.

Lemma Qclt_neq (x : Qc) : 0 < x -> x <> 0.
Proof. intros H ->. apply (Qclt_not_le _ _ H), Qcle_refl. Qed.

Lemma Qcpower_neq_0 (x : Qc) (k : nat) : x <> 0 -> x ^ k <> 0.
Proof.
  intros Hx. induction k as [|k IH]; [Qc_neq|].
  cbn [Qcpower]. intros E. apply Qcmult_integral in E. tauto.
Qed.

Lemma Z2Qc_succ (n : nat) : Z2Qc (Z.of_nat (S n)) = Z2Qc (Z.of_nat n) + 1.
Proof.
  apply Qc_is_canon. unfold Z2Qc.
  rewrite this_Qcplus, !this_Q2Qc, Nat2Z.inj_succ, <- Z.add_1_r.
  now rewrite inject_Z_plus.
Qed.

(** ** The loan term *)

Lemma py_pow_0_r (x : Qc) : py_pow x 0 = Ok 1.
Proof. rewrite py_pow_nonneg by lia. reflexivity. Qed.

Lemma M_zero_term (p : InvestmentParameters) :
  loan_term_years p = 0%Z -> M p = Raise ZeroDivisionError.
Proof.
  intros H. unfold M, number_of_payments. rewrite H.
  change (0 * 12)%Z with 0%Z. rewrite py_pow_0_r. cbn [bind].
  unfold py_div. now rewrite (Qc_eq_bool_true (1 - 1) 0) by ring.
Qed.

(** A power with a negative exponent of a number above 1, once
    computed, lies strictly between 0 and 1. *)
Lemma py_pow_negative (x a : Qc) (n : Z) :
  1 < x -> (n < 0)%Z -> py_pow x n = Ok a -> 0 < a /\ a < 1.
Proof.
  intros Hx Hn.
  assert (Hx0 : 0 < x) by (apply Qclt_trans with 1; [reflexivity | exact Hx]).
  unfold py_pow. rewrite (Qc_eq_bool_false x 0) by now apply Qclt_neq.
  rewrite andb_false_r. intros [= <-].
  unfold Qclt in *. rewrite !this_Q2Qc in *. split.
  - apply Qpower_0_lt. exact Hx0.
  - change 1%Q with (this x ^ 0)%Q.
    apply Qpower_lt_compat_l; [exact Hn | exact Hx].
Qed.

(** X1.  A loan term of zero years makes the payment formula divide by
    zero, whatever the interest rate: the payment, and with it the whole
    real-estate computation, raises ZeroDivisionError. *)
Theorem zero_loan_term_raises :
  forall (irr : list Qc -> npfloat) (p : InvestmentParameters),
    loan_term_years p = 0%Z ->
    M p = Raise ZeroDivisionError /\
    calculate_real_estate_investment irr p = Raise ZeroDivisionError.
Proof.
  intros irr p H. pose proof (M_zero_term p H) as HM.
  split; [exact HM|]. unfold calculate_real_estate_investment.
  now rewrite HM.
Qed.

Lemma zero_loan_term_raises_witness :
  loan_term_years zero_term_parameters = 0%Z /\
  calculate_real_estate_investment irr_undefined zero_term_parameters
  = Raise ZeroDivisionError.
Proof.
  assert (H : loan_term_years zero_term_parameters = 0%Z) by reflexivity.
  split; [exact H|].
  exact (proj2 (zero_loan_term_raises irr_undefined zero_term_parameters H)).
Defined.

(** X2.  A negative loan term is not rejected.  With a positive rate and
    a positive loan, whatever payment the formula returns for it is not
    positive; at a rate of 1200% over minus one year on a loan of 80 it
    returns a negative one. *)
Theorem negative_loan_term_negative_payment :
  (forall (p : InvestmentParameters) (m : Qc),
     0 < annual_interest_rate p -> (loan_term_years p < 0)%Z ->
     0 < loan_amount p ->
     M p = Ok m -> m <= 0) /\
  (exists m, M backwards_parameters = Ok m /\ m < 0).
Proof.
  split.
  - intros p m Hr Hn HL.
    pose proof (monthly_interest_rate_pos p Hr) as Hr'.
    unfold M.
    destruct (py_pow (1 + monthly_interest_rate p) (number_of_payments p))
      as [a|e] eqn:Ha; [|discriminate]. cbn [bind].
    destruct (py_pow_negative (1 + monthly_interest_rate p) a
                (number_of_payments p)) as (Ha0 & Ha1);
      [now apply Qclt_plus_pos | unfold number_of_payments; lia | exact Ha |].
    assert (Hd : a - 1 < 0).
    { apply Qclt_minus_iff. replace (0 + - (a - 1)) with (1 + - a) by ring.
      exact (proj1 (Qclt_minus_iff a 1) Ha1). }
    intros Hm. apply py_div_inv in Hm. destruct Hm as [_ ->].
    apply Qclt_le_weak, Qcdiv_neg; [|exact Hd].
    apply Qcmult_pos; [exact HL | apply Qcmult_pos; [exact Hr' | exact Ha0]].
  - destruct (M backwards_parameters) as [m|e] eqn:E;
      [|vm_compute in E; discriminate E].
    exists m. split; [reflexivity|].
    vm_compute in E. injection E as <-. reflexivity.
Qed.

Lemma negative_loan_term_negative_payment_witness :
  exists m,
    0 < annual_interest_rate backwards_parameters /\
    (loan_term_years backwards_parameters < 0)%Z /\
    0 < loan_amount backwards_parameters /\
    M backwards_parameters = Ok m /\ m <= 0.
Proof.
  assert (H1 : 0 < annual_interest_rate backwards_parameters) by reflexivity.
  assert (H2 : (loan_term_years backwards_parameters < 0)%Z) by reflexivity.
  assert (H3 : 0 < loan_amount backwards_parameters) by reflexivity.
  destruct (M backwards_parameters) as [m|e] eqn:E;
    [|vm_compute in E; discriminate E].
  exists m. repeat split; try assumption.
  exact (proj1 negative_loan_term_negative_payment backwards_parameters m
           H1 H2 H3 E).
Defined.

(** ** When the real-estate computation returns *)

Lemma M_never_IndexError (p : InvestmentParameters) :
  M p <> Raise IndexError.
Proof.
  unfold M. destruct (py_pow _ _) as [a|e] eqn:Ha; cbn [bind].
  - intros H. apply py_div_raises in H. now destruct H.
  - intros [= ->]. apply py_pow_raises in Ha. discriminate Ha.
Qed.

(** X3.  The real-estate computation returns a result only if the payment
    formula returned, the initial cash investment is not zero and the
    holding period is positive: for a holding period of zero or less, or
    a zero initial cash investment, there is never a result.  And it
    raises IndexError only if the holding period is not positive. *)
Theorem real_estate_domain :
  forall (irr : list Qc -> npfloat) (p : InvestmentParameters),
    (forall re, calculate_real_estate_investment irr p = Ok re ->
       (exists m, M p = Ok m) /\ initial_cash_investment p <> 0 /\
       (0 < holding_period_years p)%Z) /\
    ((holding_period_years p <= 0)%Z \/ initial_cash_investment p = 0 ->
     forall re, calculate_real_estate_investment irr p <> Ok re) /\
    (calculate_real_estate_investment irr p = Raise IndexError ->
     (holding_period_years p <= 0)%Z).
Proof.
  intros irr p.
  assert (Hinv : forall re, calculate_real_estate_investment irr p = Ok re ->
                 (exists m, M p = Ok m) /\ initial_cash_investment p <> 0 /\
                 (0 < holding_period_years p)%Z).
  { intros re Hre.
    destruct (calculate_real_estate_investment_inv irr p re Hre)
      as (m & HM & Hi & Hh & _). eauto. }
  split; [exact Hinv|]. split.
  - intros H re Hre. destruct (Hinv re Hre) as (_ & Hi & Hh).
    destruct H as [H|H]; [lia | contradiction].
  - unfold calculate_real_estate_investment.
    destruct (M p) as [m|e] eqn:HM; cbn [bind].
    + destruct (py_div _ _) as [q|e] eqn:Hq; cbn [bind].
      * rewrite yearly_loop_after_years.
        destruct (after_years_spec p m (NOI p - m * 12)
                    (Z.to_nat (holding_period_years p)))
          as (_ & _ & _ & _ & _ & Hcl).
        cbn zeta in Hcl. rewrite Hcl, py_last_repeat.
        destruct (Z.to_nat (holding_period_years p)) eqn:E; cbn [bind];
          [intros _; lia | discriminate].
      * intros [= ->]. apply py_div_raises in Hq. now destruct Hq.
    + intros [= ->]. now destruct (M_never_IndexError p).
Qed.

Lemma real_estate_domain_witness :
  exists re,
    calculate_real_estate_investment irr_undefined steep_parameters = Ok re /\
    initial_cash_investment steep_parameters <> 0 /\
    (0 < holding_period_years steep_parameters)%Z.
Proof.
  destruct (calculate_real_estate_investment irr_undefined steep_parameters)
    as [re|e] eqn:E; [|vm_compute in E; discriminate E].
  exists re. split; [reflexivity|].
  exact (proj2 (proj1 (real_estate_domain irr_undefined steep_parameters)
                  re E)).
Defined.

(** ** The payment against the loan *)

Lemma monthly_balance_closed (L r m : Qc) (k : nat) :
  monthly_balance L r m k * r
  = L * r * (1 + r) ^ k - m * ((1 + r) ^ k - 1).
Proof.
  induction k as [|k IH]; cbn [monthly_balance Qcpower]; [ring|].
  replace ((monthly_balance L r m k * (1 + r) - m) * r)
    with (monthly_balance L r m k * r * (1 + r) - m * r) by ring.
  rewrite IH. ring.
Qed.

(** X5.  The monthly payment is the one that clears the loan: with a
    positive rate and a positive term, whenever the payment formula
    returns [M], charging a month's interest and taking [M] off,
    [number_of_payments] times over, leaves a balance of exactly zero. *)
Theorem monthly_payment_clears_the_loan :
  forall (p : InvestmentParameters) (m : Qc),
    0 < annual_interest_rate p -> (0 < loan_term_years p)%Z ->
    M p = Ok m ->
    monthly_balance (loan_amount p) (monthly_interest_rate p) m
      (Z.to_nat (number_of_payments p)) = 0.
Proof.
  intros p m Hr Hn Hm. destruct (M_ok p Hr Hn) as [Hd HM]. cbn zeta in *.
  pose proof (monthly_interest_rate_pos p Hr) as Hr'.
  rewrite Hm in HM. injection HM as ->.
  set (r := monthly_interest_rate p) in *.
  set (n := Z.to_nat (number_of_payments p)) in *.
  set (L := loan_amount p) in *.
  apply (Qcmult_integral_l r); [now apply Qclt_neq|].
  rewrite Qcmult_comm, monthly_balance_closed. field. exact Hd.
Qed.

Lemma monthly_payment_clears_the_loan_witness :
  exists m,
    0 < annual_interest_rate steep_parameters /\
    (0 < loan_term_years steep_parameters)%Z /\
    M steep_parameters = Ok m /\
    monthly_balance (loan_amount steep_parameters)
      (monthly_interest_rate steep_parameters) m 12 = 0.
Proof.
  assert (H1 : 0 < annual_interest_rate steep_parameters) by reflexivity.
  assert (H2 : (0 < loan_term_years steep_parameters)%Z) by reflexivity.
  destruct (M steep_parameters) as [m|e] eqn:E;
    [|vm_compute in E; discriminate E].
  exists m. split; [exact H1|]. split; [exact H2|]. split; [reflexivity|].
  exact (monthly_payment_clears_the_loan steep_parameters m H1 H2 E).
Defined.

Lemma monthly_balance_add (L r m : Qc) (j k : nat) :
  monthly_balance L r m (j + k)
  = monthly_balance L r m k * (1 + r) ^ j - m * geometric_sum r j.
Proof.
  induction j as [|j IH];
    cbn [Nat.add monthly_balance geometric_sum Qcpower]; [ring|].
  rewrite IH. ring.
Qed.

Lemma geometric_sum_ge (r : Qc) (k : nat) :
  0 <= r -> Z2Qc (Z.of_nat k) <= geometric_sum r k.
Proof.
  intros Hr. induction k as [|k IH]; [apply Qcle_refl|].
  rewrite Z2Qc_succ. cbn [geometric_sum].
  assert (H0 : 0 <= geometric_sum r k).
  { apply Qcle_trans with (Z2Qc (Z.of_nat k)); [|exact IH].
    clear. induction k as [|k IH]; [apply Qcle_refl|].
    rewrite Z2Qc_succ. apply Qcplus_nonneg; [exact IH | discriminate]. }
  apply Qcle_minus_iff.
  replace (geometric_sum r k * (1 + r) + 1 + - (Z2Qc (Z.of_nat k) + 1))
    with ((geometric_sum r k + - Z2Qc (Z.of_nat k)) + geometric_sum r k * r)
    by ring.
  apply Qcplus_nonneg.
  - exact (proj1 (Qcle_minus_iff _ _) IH).
  - apply Qcmult_nonneg; [exact H0 | exact Hr].
Qed.

Lemma balance_after_ge_monthly (p : InvestmentParameters) (m : Qc) (y : nat) :
  0 <= annual_interest_rate p -> 0 <= m ->
  monthly_balance (loan_amount p) (monthly_interest_rate p) m (12 * y)
  <= balance_after p m y.
Proof.
  intros Hr Hm.
  assert (Hr' : 0 <= monthly_interest_rate p).
  { unfold monthly_interest_rate, Qcdiv.
    repeat apply Qcmult_nonneg; try exact Hr; discriminate. }
  induction y as [|y IH]; [apply Qcle_refl|].
  replace (12 * S y)%nat with (12 + 12 * y)%nat by lia.
  rewrite monthly_balance_add. cbn [balance_after].
  set (t := monthly_balance _ _ _ _) in *.
  set (b := balance_after p m y) in *.
  set (r := monthly_interest_rate p) in *.
  apply Qcle_minus_iff.
  replace (b * (1 + r) ^ 12 - 12 * m
           + - (t * (1 + r) ^ 12 - m * geometric_sum r 12))
    with ((b - t) * (1 + r) ^ 12 + m * (geometric_sum r 12 - 12))
    by ring.
  apply Qcplus_nonneg; apply Qcmult_nonneg.
  - exact (proj1 (Qcle_minus_iff _ _) IH).
  - apply Qcpower_pos. apply Qcplus_nonneg; [discriminate | exact Hr'].
  - exact Hm.
  - exact (proj1 (Qcle_minus_iff _ _) (geometric_sum_ge r 12 Hr')).
Qed.

(** X6.  The recorded mortgage balances are never below what paying
    month by month leaves: with a rate and a payment that are not
    negative, the balance recorded for year [y] is at least the balance of
    the loan after [12 y] monthly payments of [M].  (The yearly loop takes
    the twelve payments off at the end of the year, so they earn no
    interest relief.) *)
Theorem recorded_balance_not_below_amortization :
  forall (irr : list Qc -> npfloat) (p : InvestmentParameters)
         (re : RealEstateResult.t) (m : Qc),
    calculate_real_estate_investment irr p = Ok re ->
    M p = Ok m ->
    0 <= annual_interest_rate p -> 0 <= m ->
    forall (y : nat) (balance : Qc),
      nth_error (RealEstateResult.mortgage_balance_list re) y
      = Some balance ->
      monthly_balance (loan_amount p) (monthly_interest_rate p) m
        (12 * S y) <= balance.
Proof.
  intros irr p re m Hre HM Hr Hm y balance Hy.
  destruct (calculate_real_estate_investment_inv irr p re Hre)
    as (m' & HM' & _ & _ & Hinv).
  rewrite HM in HM'. injection HM' as <-.
  cbn zeta in Hinv. destruct Hinv as (_ & _ & _ & _ & _ & _ & Hbl & _).
  destruct (after_years_spec p m (NOI p - m * 12)
              (Z.to_nat (holding_period_years p)))
    as (_ & _ & _ & Hbl' & _).
  cbn zeta in Hbl'. rewrite Hbl, Hbl' in Hy.
  assert (Hlt : (y < Z.to_nat (holding_period_years p))%nat).
  { assert (H : nth_error
                  (map (fun k => balance_after p m (S k))
                     (seq 0 (Z.to_nat (holding_period_years p)))) y
                <> None) by (rewrite Hy; discriminate).
    apply nth_error_Some in H. now rewrite length_map, length_seq in H. }
  rewrite (nth_error_map_seq (fun k => balance_after p m (S k))) in Hy
    by exact Hlt.
  injection Hy as <-. now apply balance_after_ge_monthly.
Qed.

Lemma recorded_balance_not_below_amortization_witness :
  exists re m balance,
    calculate_real_estate_investment irr_undefined steep_parameters = Ok re /\
    M steep_parameters = Ok m /\
    nth_error (RealEstateResult.mortgage_balance_list re) 0 = Some balance /\
    monthly_balance (loan_amount steep_parameters)
      (monthly_interest_rate steep_parameters) m 12 <= balance.
Proof.
  assert (H1 : 0 < annual_interest_rate steep_parameters) by reflexivity.
  assert (H2 : (0 < loan_term_years steep_parameters)%Z) by reflexivity.
  destruct (M_ok steep_parameters H1 H2) as [_ HM]. cbn zeta in HM.
  destruct (calculate_real_estate_investment_returns irr_undefined
              steep_parameters _ HM) as [re Hre]; [Qc_neq | reflexivity |].
  destruct (calculate_real_estate_investment_inv irr_undefined
              steep_parameters re Hre) as (m & HM' & _ & _ & Hinv).
  cbn zeta in Hinv. destruct Hinv as (_ & _ & _ & _ & _ & _ & Hbl & _).
  destruct (after_years_spec steep_parameters m
              (NOI steep_parameters - m * 12) 2) as (_ & _ & _ & Hbl' & _).
  cbn zeta in Hbl'.
  assert (Hb : nth_error (RealEstateResult.mortgage_balance_list re) 0
               = Some (balance_after steep_parameters m 1)).
  { rewrite Hbl. change (Z.to_nat (holding_period_years steep_parameters))
      with 2%nat. now rewrite Hbl'. }
  assert (Hm : 0 <= m).
  { rewrite HM in HM'. injection HM' as <-. vm_compute. discriminate. }
  exists re, m, (balance_after steep_parameters m 1).
  split; [exact Hre|]. split; [exact HM'|]. split; [exact Hb|].
  assert (H0 : 0 <= annual_interest_rate steep_parameters)
    by (vm_compute; discriminate).
  exact (recorded_balance_not_below_amortization irr_undefined
           steep_parameters re m Hre HM' H0 Hm 0%nat
           (balance_after steep_parameters m 1) Hb).
Defined.

Lemma Qcinv_neq_0 (x : Qc) : x <> 0 -> / x <> 0.
Proof.
  intros Hx E. apply Q_apart_0_1.
  rewrite <- (Qcmult_inv_r x Hx), E. ring.
Qed.

(** ** The stock summary *)

Lemma Qcsum_snoc (l : list Qc) (x : Qc) : Qcsum (l ++ [x]) = Qcsum l + x.
Proof.
  unfold Qcsum. induction l as [|a l IH]; cbn [app fold_right]; [ring|].
  rewrite IH. ring.
Qed.

(** X7.  The total return shown in the summary is the sum of the annual
    returns: the last portfolio value is the initial investment compounded
    over the holding period, and taking the initial investment off it gives
    exactly what the yearly returns add up to.  (Whatever the holding
    period: with none, both are zero.) *)
Theorem total_return_is_sum_of_returns :
  forall (irr : list Qc -> npfloat) (p : InvestmentParameters),
    exists st,
      calculate_stock_investment irr p = Ok st /\
      final_portfolio_value st
      = Ok (initial_stock_investment p
            * (1 + expected_annual_return_rate p / 100)
              ^ Z.to_nat (holding_period_years p)) /\
      total_return p st = Ok (Qcsum (StockResult.annual_returns st)).
Proof.
  intros irr p. eexists. split; [apply calculate_stock_investment_spec|].
  unfold total_return, final_portfolio_value.
  cbn [StockResult.portfolio_values StockResult.annual_returns].
  rewrite py_last_map_seq. split; [reflexivity|]. cbn [bind]. f_equal.
  induction (Z.to_nat (holding_period_years p)) as [|n IH].
  - unfold portfolio_after. cbn. ring.
  - rewrite seq_S, map_app. cbn [map Nat.add]. rewrite Qcsum_snoc.
    rewrite <- IH, portfolio_after_S. ring.
Qed.

(** X8.  The stock payback period does not depend on the amount invested:
    for a nonzero investment and a nonzero expected return it is
    [100 / expected_annual_return_rate] years; with nothing invested it
    raises ZeroDivisionError, whatever the return. *)
Theorem stock_payback_period :
  forall p : InvestmentParameters,
    (initial_stock_investment p <> 0 ->
     expected_annual_return_rate p <> 0 ->
     payback_period_stock p = Ok (100 / expected_annual_return_rate p)) /\
    (initial_stock_investment p = 0 ->
     payback_period_stock p = Raise ZeroDivisionError).
Proof.
  intros p. unfold payback_period_stock, annual_return_stock. split.
  - intros Hi Hr.
    assert (Hd : initial_stock_investment p * expected_annual_return_rate p
                 / 100 <> 0).
    { unfold Qcdiv. intros E.
      apply Qcmult_integral in E. destruct E as [E|E]; [|revert E; Qc_neq].
      apply Qcmult_integral in E. tauto. }
    rewrite py_div_ok by exact Hd. f_equal. field.
    repeat split; (assumption || Qc_neq).
  - intros ->. unfold py_div.
    now rewrite (Qc_eq_bool_true (0 * expected_annual_return_rate p / 100) 0)
      by (field; Qc_neq).
Qed.

Lemma stock_payback_period_witness :
  initial_stock_investment default_parameters <> 0 /\
  expected_annual_return_rate default_parameters <> 0 /\
  payback_period_stock default_parameters = Ok (100 / 8).
Proof.
  assert (H1 : initial_stock_investment default_parameters <> 0) by Qc_neq.
  assert (H2 : expected_annual_return_rate default_parameters <> 0)
    by Qc_neq.
  split; [exact H1|]. split; [exact H2|].
  exact (proj1 (stock_payback_period default_parameters) H1 H2).
Defined.

(** X9.  In a real-estate result the payback period and the cash-on-cash
    return say the same thing: where the annual cash flow is not zero, the
    payback period is [100 / cash_on_cash_return] years. *)
Theorem payback_is_inverse_cash_on_cash :
  forall (irr : list Qc -> npfloat) (p : InvestmentParameters)
         (re : RealEstateResult.t),
    calculate_real_estate_investment irr p = Ok re ->
    RealEstateResult.annual_cash_flow re <> 0 ->
    RealEstateResult.cash_on_cash_return re <> 0 /\
    payback_period_real_estate re
    = Ok (100 / RealEstateResult.cash_on_cash_return re).
Proof.
  intros irr p re Hre Hcf.
  destruct (calculate_real_estate_investment_inv irr p re Hre)
    as (m & _ & Hi & _ & Hinv).
  cbn zeta in Hinv. destruct Hinv as (Hcf' & Hi' & Hc & _).
  rewrite Hcf' in Hcf.
  assert (Hc0 : RealEstateResult.cash_on_cash_return re <> 0).
  { rewrite Hc. unfold Qcdiv. intros E.
    apply Qcmult_integral in E. destruct E as [E|E]; [|revert E; Qc_neq].
    apply Qcmult_integral in E. destruct E as [E|E]; [tauto|].
    revert E. now apply Qcinv_neq_0. }
  split; [exact Hc0|].
  unfold payback_period_real_estate. rewrite Hi', Hcf'.
  rewrite py_div_ok by exact Hcf. f_equal. rewrite Hc. field.
  repeat split; (assumption || Qc_neq).
Qed.

Lemma payback_is_inverse_cash_on_cash_witness :
  exists re,
    calculate_real_estate_investment irr_undefined steep_parameters = Ok re /\
    RealEstateResult.annual_cash_flow re <> 0 /\
    payback_period_real_estate re
    = Ok (100 / RealEstateResult.cash_on_cash_return re).
Proof.
  assert (H1 : 0 < annual_interest_rate steep_parameters) by reflexivity.
  assert (H2 : (0 < loan_term_years steep_parameters)%Z) by reflexivity.
  destruct (M_ok steep_parameters H1 H2) as [_ HM]. cbn zeta in HM.
  destruct (calculate_real_estate_investment_returns irr_undefined
              steep_parameters _ HM) as [re Hre]; [Qc_neq | reflexivity |].
  destruct (calculate_real_estate_investment_inv irr_undefined
              steep_parameters re Hre) as (m & HM' & _ & _ & Hinv).
  cbn zeta in Hinv. destruct Hinv as (Hcf & _).
  rewrite HM in HM'. injection HM' as <-.
  assert (H : RealEstateResult.annual_cash_flow re <> 0)
    by (rewrite Hcf; Qc_neq).
  exists re. split; [exact Hre|]. split; [exact H|].
  exact (proj2 (payback_is_inverse_cash_on_cash irr_undefined
                  steep_parameters re Hre H)).
Defined.

(** ** The chart tables *)

Lemma real_estate_cash_flows_lengths (irr : list Qc -> npfloat)
    (p : InvestmentParameters) (re : RealEstateResult.t) :
  calculate_real_estate_investment irr p = Ok re ->
  let h := Z.to_nat (holding_period_years p) in
  length (RealEstateResult.property_value_list re) = h /\
  length (RealEstateResult.mortgage_balance_list re) = h /\
  length (RealEstateResult.equity_list re) = h /\
  length (RealEstateResult.annual_cash_flow_list re) = h.
Proof.
  intros Hre h.
  destruct (calculate_real_estate_investment_inv irr p re Hre)
    as (m & _ & _ & _ & Hinv).
  cbn zeta in Hinv.
  destruct Hinv as (_ & _ & _ & _ & Hel & Hvl & Hbl & Hcl & _).
  destruct (after_years_spec p m (NOI p - m * 12) h)
    as (_ & _ & Hvl' & Hbl' & Hel' & _).
  cbn zeta in *. fold h in Hel, Hvl, Hbl, Hcl.
  rewrite Hvl, Hvl', Hbl, Hbl', Hel, Hel', Hcl.
  now rewrite !length_map, !length_seq, repeat_length.
Qed.

(** X10.  The tables built for the charts are rectangular: once both
    computations have returned, every column given to [pd.DataFrame] for
    the real-estate table, the stock table and the combined cash-flow table
    has one entry per year of the holding period, and the Year column
    counts 1, 2, ... up to the holding period. *)
Theorem chart_tables_rectangular :
  forall (irr : list Qc -> npfloat) (p : InvestmentParameters)
         (re : RealEstateResult.t) (st : StockResult.t),
    calculate_real_estate_investment irr p = Ok re ->
    calculate_stock_investment irr p = Ok st ->
    let h := Z.to_nat (holding_period_years p) in
    years p = map Z.of_nat (seq 1 h) /\
    Forall (fun column => length column = h)
      (real_estate_df p re ++ stock_df p st ++ combined_cash_flow_df p re st).
Proof.
  intros irr p re st Hre Hst h.
  assert (Hy : years p = map Z.of_nat (seq 1 h)).
  { unfold years, py_range.
    replace (Z.to_nat (holding_period_years p + 1 - 1)) with h
      by (unfold h; lia).
    rewrite <- seq_shift, map_map. apply map_ext. intros i. lia. }
  split; [exact Hy|].
  assert (Hyl : length (map Z2Qc (years p)) = h)
    by now rewrite Hy, !length_map, length_seq.
  destruct (real_estate_cash_flows_lengths irr p re Hre)
    as (Hv & Hb & He & Hc).
  rewrite calculate_stock_investment_spec in Hst. cbn zeta in Hst.
  injection Hst as <-.
  unfold real_estate_df, stock_df, combined_cash_flow_df.
  cbn [app StockResult.portfolio_values StockResult.annual_returns].
  fold h.
  assert (Hr : length (map (fun k => portfolio_after p k
                             * expected_annual_return_rate p / 100)
                         (seq 0 h)) = h)
    by now rewrite length_map, length_seq.
  assert (Ht : length (tl (map (portfolio_after p) (seq 0 (S h)))) = h)
    by (cbn [seq map tl]; now rewrite length_map, length_seq).
  repeat constructor; assumption.
Qed.

Lemma chart_tables_rectangular_witness :
  exists re st,
    calculate_real_estate_investment irr_undefined steep_parameters = Ok re /\
    calculate_stock_investment irr_undefined steep_parameters = Ok st /\
    years steep_parameters = [1%Z; 2%Z] /\
    Forall (fun column => length column = 2%nat)
      (real_estate_df steep_parameters re).
Proof.
  assert (H1 : 0 < annual_interest_rate steep_parameters) by reflexivity.
  assert (H2 : (0 < loan_term_years steep_parameters)%Z) by reflexivity.
  destruct (M_ok steep_parameters H1 H2) as [_ HM]. cbn zeta in HM.
  destruct (calculate_real_estate_investment_returns irr_undefined
              steep_parameters _ HM) as [re Hre]; [Qc_neq | reflexivity |].
  pose proof (calculate_stock_investment_spec irr_undefined steep_parameters)
    as Hst. cbn zeta in Hst.
  destruct (chart_tables_rectangular irr_undefined steep_parameters re _
              Hre Hst) as [Hy Hall].
  eexists re, _. split; [exact Hre|]. split; [exact Hst|].
  split; [exact Hy|].
  apply Forall_app in Hall. exact (proj1 Hall).
Defined.

(** ** Buying without a loan *)

Lemma balance_after_no_loan (p : InvestmentParameters) (y : nat) :
  loan_amount p = 0 -> balance_after p 0 y = 0.
Proof.
  intros HL. induction y as [|y IH]; cbn [balance_after]; [exact HL|].
  rewrite IH. ring.
Qed.

(** X11.  A purchase paid in full: with a down payment of 100% (and a
    positive rate and term, so that the payment formula goes through) the
    loan amount and the monthly payment are zero; in the result the annual
    cash flow is the whole net operating income, every recorded mortgage
    balance is zero and the equity in each year is the property value. *)
Theorem full_down_payment :
  forall (irr : list Qc -> npfloat) (p : InvestmentParameters)
         (re : RealEstateResult.t),
    down_payment_percent p = 100 ->
    0 < annual_interest_rate p -> (0 < loan_term_years p)%Z ->
    calculate_real_estate_investment irr p = Ok re ->
    loan_amount p = 0 /\ M p = Ok 0 /\
    RealEstateResult.annual_cash_flow re = NOI p /\
    Forall (fun balance => balance = 0)
      (RealEstateResult.mortgage_balance_list re) /\
    RealEstateResult.equity_list re
    = RealEstateResult.property_value_list re.
Proof.
  intros irr p re Hd Hr Hn Hre.
  assert (HL : loan_amount p = 0).
  { unfold loan_amount, down_payment. rewrite Hd. field. Qc_neq. }
  destruct (M_ok p Hr Hn) as [Hnz HM]. cbn zeta in *.
  assert (HM0 : M p = Ok 0).
  { rewrite HM, HL. f_equal. field. exact Hnz. }
  destruct (calculate_real_estate_investment_inv irr p re Hre)
    as (m & HM' & _ & _ & Hinv).
  rewrite HM0 in HM'. injection HM' as <-.
  cbn zeta in Hinv.
  destruct Hinv as (Hcf & _ & _ & _ & Hel & Hvl & Hbl & _).
  destruct (after_years_spec p 0 (NOI p - 0 * 12)
              (Z.to_nat (holding_period_years p)))
    as (_ & _ & Hvl' & Hbl' & Hel' & _).
  cbn zeta in *.
  split; [exact HL|]. split; [exact HM0|]. split; [|split].
  - rewrite Hcf. ring.
  - rewrite Hbl, Hbl'. apply Forall_forall. intros b Hb.
    apply in_map_iff in Hb. destruct Hb as (k & <- & _).
    now apply balance_after_no_loan.
  - rewrite Hel, Hel', Hvl, Hvl'. apply map_ext. intros k.
    rewrite balance_after_no_loan by exact HL. ring.
Qed.

Lemma full_down_payment_witness :
  exists re,
    calculate_real_estate_investment irr_undefined paid_in_full_parameters
    = Ok re /\
    M paid_in_full_parameters = Ok 0 /\
    RealEstateResult.equity_list re
    = RealEstateResult.property_value_list re.
Proof.
  assert (H0 : down_payment_percent paid_in_full_parameters = 100)
    by reflexivity.
  assert (H1 : 0 < annual_interest_rate paid_in_full_parameters)
    by reflexivity.
  assert (H2 : (0 < loan_term_years paid_in_full_parameters)%Z)
    by reflexivity.
  destruct (M_ok paid_in_full_parameters H1 H2) as [_ HM]. cbn zeta in HM.
  destruct (calculate_real_estate_investment_returns irr_undefined
              paid_in_full_parameters _ HM) as [re Hre];
    [Qc_neq | reflexivity |].
  destruct (full_down_payment irr_undefined paid_in_full_parameters re
              H0 H1 H2 Hre) as (_ & HM0 & _ & _ & He).
  exists re. split; [exact Hre|]. split; [exact HM0 | exact He].
Defined.

(** ** The stock model's net present value *)

Lemma discounted_returns (I g d : Qc) (a n : nat) :
  d <> 0 ->
  discounted_sum d (S a) (map (fun k => I * d ^ k * g) (seq a n))
  = Z2Qc (Z.of_nat n) * (I * g / d).
Proof.
  intros Hd. revert a. induction n as [|n IH]; intros a.
  - change (Z2Qc (Z.of_nat 0)) with 0. cbn [seq map discounted_sum]. ring.
  - rewrite Z2Qc_succ. cbn [seq map discounted_sum]. rewrite IH.
    cbn [Qcpower]. field.
    repeat split; (assumption || now apply Qcpower_neq_0).
Qed.

(** X12.  The stock model's NPV has a closed form that never counts the
    portfolio itself: discounted at its own expected return [g], every
    annual return is worth [initial * g / (1 + g)], so over a holding
    period of [h] years the NPV is [initial * (h * g / (1 + g) - 1)]. *)
Theorem stock_npv_closed_form :
  forall (irr : list Qc -> npfloat) (p : InvestmentParameters),
    let g := expected_annual_return_rate p / 100 in
    1 + g <> 0 -> (0 <= holding_period_years p)%Z ->
    exists st,
      calculate_stock_investment irr p = Ok st /\
      StockResult.NPV st
      = Fin (initial_stock_investment p
             * (holding_period_years p * g / (1 + g) - 1)).
Proof.
  intros irr p g Hg Hh. eexists. split.
  { apply calculate_stock_investment_spec. }
  cbn [StockResult.NPV]. fold g. unfold npv.
  rewrite Qc_eq_bool_false by exact Hg. f_equal.
  cbn [discounted_sum Qcpower]. unfold portfolio_after. fold g.
  rewrite (map_ext _ (fun k => initial_stock_investment p * (1 + g) ^ k * g))
    by (intros k; unfold g; field; Qc_neq).
  rewrite discounted_returns by exact Hg.
  rewrite Z2Nat.id by exact Hh. field. split; [exact Hg | Qc_neq].
Qed.

Lemma stock_npv_closed_form_witness :
  exists st,
    calculate_stock_investment irr_undefined default_parameters = Ok st /\
    StockResult.NPV st = Fin (75000 * (5 * (8 / 100) / (1 + 8 / 100) - 1)).
Proof.
  assert (H1 : 1 + expected_annual_return_rate default_parameters / 100 <> 0)
    by Qc_neq.
  assert (H2 : (0 <= holding_period_years default_parameters)%Z)
    by (cbn; lia).
  exact (stock_npv_closed_form irr_undefined default_parameters H1 H2).
Defined.
